(** * jsonPaymentProtocol: the payment-protocol client and its response verifier

    A shallow embedding of [index.js] (the [PaymentProtocol] client) into
    Rocq.  The client is JavaScript: its arguments are dynamically typed,
    it reads a trust store held by the client object, it talks to the
    network through [https.request] and it signals every failure by
    throwing.  The embedding keeps these four aspects explicit:

    - JavaScript values are the inductive type [value];
    - a computation runs in the monad [M]: it reads and returns the
      [World] (the client object and the requests written to the wire) and
      completes with [Return] or [Throw];
    - the services the client takes from Node.js and npm ([JSON], [url],
      [querystring], [crypto], [Buffer], [secp256k1], [https]) form the
      interface [Runtime]; the client is verified against every runtime,
      and the module [Node] gives a reference implementation of it, used to
      run the client on concrete inputs;
    - strings are byte strings: a JavaScript string is represented by its
      UTF-8 encoding.

    The module [Wallet] embeds, in the same way, the commands that the
    example wallet [examples/rpc-wallet-client.js] sends to a bitcoin RPC
    server. *)

From Stdlib Require Import ZArith List String Ascii Bool Lia.
From stdpp Require Import base strings gmap pretty.
From Bignums Require Import BigZ.

Set Warnings "-register-all".
Local Open Scope Z_scope.

(** ** JavaScript values *)

(** A number is kept as the exact decimal [num_m * 10 ^ num_e] of its
    literal; rounding to binary64 is outside the model.  The client itself
    only ever observes whether a number is zero. *)
Record number := Num { num_m : Z; num_e : Z }.

Inductive value :=
| VUndefined
| VNull
| VBool (b : bool)
| VNum (n : number)
| VStr (s : string)
| VArr (xs : list value)
| VObj (fields : list (string * value)).

(** [!v] is [negb (truthy v)]. *)
Definition truthy (v : value) : bool :=
  match v with
  | VUndefined | VNull => false
  | VBool b => b
  | VNum n => negb (num_m n =? 0)
  | VStr s => negb (String.eqb s "")
  | VArr _ | VObj _ => true
  end.

(** [typeof v === 'string'] *)
Definition is_string (v : value) : bool :=
  match v with VStr _ => true | _ => false end.

(** Own property of an object literal; the first binding of a key is the
    live one. *)
Fixpoint assoc (k : string) (fields : list (string * value)) : option value :=
  match fields with
  | [] => None
  | (k', v) :: rest => if String.eqb k k' then Some v else assoc k rest
  end.

(** Assignment [o[k] = v]: an existing key keeps its position. *)
Fixpoint assoc_set (k : string) (v : value) (fields : list (string * value))
  : list (string * value) :=
  match fields with
  | [] => [(k, v)]
  | (k', v') :: rest =>
      if String.eqb k k' then (k, v) :: rest else (k', v') :: assoc_set k v rest
  end.

(** ** Exceptions and completions *)

(** [Error] is [new Error(msg)], thrown by the client itself.  The other
    constructors are exceptions raised underneath it: by the language
    ([TypeError] on a property read of [undefined] or a call of a
    non-function), by [JSON.parse] ([SyntaxError]), by a library
    ([LibError]) and by the socket ([NetError]). *)
Inductive exn :=
| Error (msg : string)
| TypeError (msg : string)
| SyntaxError (msg : string)
| LibError (msg : string)
| NetError (msg : string).

Inductive completion (A : Type) :=
| Return (a : A)
| Throw (e : exn).
Arguments Return {A} a.
Arguments Throw {A} e.

(** [v.name] for the property names the client reads ([digest],
    [signature], [x-signature-type], [x-identity], [network], [r]): none
    of them is defined on a built-in prototype, so on anything but an
    object with that own property the read gives [undefined], and on
    [undefined] and [null] it throws. *)
Definition get_prop (v : value) (name : string) : completion value :=
  match v with
  | VUndefined =>
      Throw (TypeError ("Cannot read property '" +:+ name +:+ "' of undefined"))
  | VNull =>
      Throw (TypeError ("Cannot read property '" +:+ name +:+ "' of null"))
  | VObj fields => Return (default VUndefined (assoc name fields))
  | _ => Return VUndefined
  end.

(** ** The trust store *)

(** One entry of [trustedKeys], as [config.example.js] lays it out. *)
Record TrustedKey := {
  owner : string;
  publicKey : string;
  domains : list string;
  networks : list string
}.

(** The members every object literal inherits from [Object.prototype]:
    [trustedKeys[identity]] finds them when [identity] is not an own key. *)
Definition object_prototype : list string :=
  ["constructor"; "__proto__"; "hasOwnProperty"; "isPrototypeOf";
   "propertyIsEnumerable"; "toLocaleString"; "toString"; "valueOf";
   "__defineGetter__"; "__defineSetter__"; "__lookupGetter__";
   "__lookupSetter__"].

Inductive property :=
| OwnKey (k : TrustedKey)
| Inherited
| Missing.

Definition trusted_lookup (trustedKeys : gmap string TrustedKey) (identity : string)
  : property :=
  match trustedKeys !! identity with
  | Some k => OwnKey k
  | None =>
      if existsb (String.eqb identity) object_prototype then Inherited else Missing
  end.

(** [list.includes(x)] on an array of strings. *)
Definition includes (l : list string) (x : value) : bool :=
  match x with
  | VStr s => existsb (String.eqb s) l
  | _ => false
  end.

(** ** The client object and the world *)

(** [this.options] and the options handed to [https.request] are plain
    objects used as maps from option name to value. *)
Record PaymentProtocol := {
  options : gmap string value;
  trustedKeys : gmap string TrustedKey
}.

(** What [https.request] has been given, and what has been written to the
    request before [end()]. *)
Record Sent := {
  sent_options : gmap string value;
  sent_body : option string
}.

Record World := {
  self : PaymentProtocol;
  wire : list Sent
}.

Definition M (A : Type) : Type := World -> completion A * World.

Definition ret {A} (a : A) : M A := fun w => (Return a, w).
Definition throw {A} (e : exn) : M A := fun w => (Throw e, w).
Definition bind {A B} (m : M A) (f : A -> M B) : M B :=
  fun w =>
    match m w with
    | (Return a, w') => f a w'
    | (Throw e, w') => (Throw e, w')
    end.
Definition lift {A} (c : completion A) : M A := fun w => (c, w).
(** [try { m } catch (e) { a }] *)
Definition try_catch {A} (m : M A) (handler : exn -> M A) : M A :=
  fun w =>
    match m w with
    | (Return a, w') => (Return a, w')
    | (Throw e, w') => handler e w'
    end.
Definition this_options : M (gmap string value) :=
  fun w => (Return (options (self w)), w).
Definition this_trustedKeys : M (gmap string TrustedKey) :=
  fun w => (Return (trustedKeys (self w)), w).

Declare Scope js_scope.
Delimit Scope js_scope with js.
Notation "x <- m ;; k" := (bind m (fun x => k))
  (at level 90, m at level 80, k at level 200, right associativity) : js_scope.
Notation "m ;;; k" := (bind m (fun _ => k))
  (at level 90, k at level 200, right associativity) : js_scope.
Notation "'when' c 'throw_' e" := (if c then throw e else ret tt)
  (at level 80, c at level 9, e at level 9) : js_scope.

(** ** The runtime: what the client takes from Node.js and npm *)

(** The object [url.parse] returns; a JavaScript [null] is [None]. *)
Record Url := {
  protocol : option string;
  hostname : option string;
  port : option string;
  path : option string;
  query : option string
}.

Definition of_nullable (o : option string) : value :=
  match o with Some s => VStr s | None => VNull end.

(** How one HTTPS exchange ends: the socket fails, or a response arrives
    with its status code, its headers and the chunks of its body. *)
Inductive Outcome :=
| SocketError (msg : string)
| Response (statusCode : Z) (responseHeaders : value) (chunks : list string).

Class Runtime := {
  (** [JSON.parse(text)]; throws a [SyntaxError]. *)
  JSON_parse : string -> completion value;
  (** [JSON.stringify(object)] *)
  JSON_stringify : value -> string;
  (** [String(number)] *)
  Number_toString : number -> string;
  (** [url.parse(string)]; may throw ([URIError] on a malformed
      authority). *)
  url_parse : string -> completion Url;
  (** [querystring.decode(query)], [query] a string or [null]. *)
  querystring_decode : option string -> value;
  (** [crypto.createHash('sha256').update(text, 'utf8').digest('hex')] *)
  sha256_hex : string -> string;
  (** [Buffer.from(text, 'hex')] *)
  Buffer_from_hex : string -> list Byte.byte;
  (** [secp256k1.verify(message, signature, publicKey)]; throws on
      arguments of the wrong length and on unparsable keys or signatures. *)
  secp256k1_verify :
    list Byte.byte -> list Byte.byte -> list Byte.byte -> completion bool;
  (** The network: the exchange that follows [https.request(options)] once
      the body, if any, is written and the request ended. *)
  https_request : gmap string value -> option string -> Outcome
}.

Section Client.
Context `{Runtime}.
Local Open Scope js_scope.

(** [String(v)], as template literals and [JSON.parse] apply it. *)
Fixpoint ToString (v : value) : string :=
  match v with
  | VUndefined => "undefined"
  | VNull => "null"
  | VBool true => "true"
  | VBool false => "false"
  | VNum n => Number_toString n
  | VStr s => s
  | VArr xs =>
      String.concat ","
        (map (fun x => match x with
                       | VUndefined | VNull => ""
                       | _ => ToString x
                       end) xs)
  | VObj _ => "[object Object]"
  end.

(** [url.parse(v)]: a [TypeError] unless [v] is a string.  The text of its
    message differs between the versions of Node.js; the statements below
    depend on the class of the exception only. *)
Definition url_parse_value (v : value) : completion Url :=
  match v with
  | VStr s => url_parse s
  | _ => Throw (TypeError "Parameter 'url' must be a string")
  end.

(** [s.split('=')] *)
Fixpoint split_eq (s : string) : list string :=
  match s with
  | EmptyString => [""]
  | String c rest =>
      if Ascii.eqb c "="%char then "" :: split_eq rest
      else match split_eq rest with
           | [] => [String c ""]
           | piece :: pieces => String c piece :: pieces
           end
  end.

(** [digest.split('=')[1]] *)
Definition digest_hash (digest : value) : completion value :=
  match digest with
  | VUndefined => Throw (TypeError "Cannot read property 'split' of undefined")
  | VNull => Throw (TypeError "Cannot read property 'split' of null")
  | VStr s =>
      Return (match nth_error (split_eq s) 1 with
              | Some piece => VStr piece
              | None => VUndefined
              end)
  | _ => Throw (TypeError "headers.digest.split is not a function")
  end.

(** [typeof v !== 'string'] guard followed by the use of [v] as a string. *)
Definition expect_string (v : value) (e : exn) : M string :=
  match v with
  | VStr s => ret s
  | _ => throw e
  end.

(** What [_asyncRequest] resolves to, and what the operations resolve to;
    a property that the object returned does not have reads as
    [undefined], or as no key. *)
Record Reply := {
  rawBody : value;
  headers : value
}.

Record Verified := {
  requestUrl : value;
  responseData : value;
  keyData : option TrustedKey
}.

(** [https.request(requestOptions, ...)], [request.write(body)] when the
    body is truthy, [request.end()], and the promise that settles on the
    response's [end] event or on the request's [error] event.  The chunks
    of the body are joined as strings; a status other than 200 rejects
    with the body for message.  Writing a body that is not a string throws,
    which leaves the request opened and never ended. *)
Definition request (requestOptions : gmap string value) : M Reply :=
  fun w =>
    let body := default VUndefined (requestOptions !! "body") in
    let opened written :=
      {| self := self w;
         wire := wire w ++ [{| sent_options := requestOptions;
                               sent_body := written |}] |} in
    let settle written :=
      match https_request requestOptions written with
      | SocketError msg => (Throw (NetError msg), opened written)
      | Response statusCode responseHeaders chunks =>
          if statusCode =? 200
          then (Return {| rawBody := VStr (String.concat "" chunks);
                          headers := responseHeaders |}, opened written)
          else (Throw (Error (String.concat "" chunks)), opened written)
      end in
    if truthy body then
      match body with
      | VStr text => settle (Some text)
      | _ => (Throw (TypeError "First argument must be a string or Buffer"),
              opened None)
      end
    else settle None.

(** [PaymentProtocol.prototype._asyncRequest]: the options of the call
    over those of the client, the URL replaced by its host name, path and
    port. *)
Definition _asyncRequest (options : gmap string value) : M Reply :=
  this_options <- this_options ;;
  let requestOptions := options ∪ this_options in
  parsedUrl <- lift (url_parse_value (default VUndefined (requestOptions !! "url"))) ;;
  let requestOptions := <["hostname" := of_nullable (hostname parsedUrl)]> requestOptions in
  let requestOptions := <["path" := of_nullable (path parsedUrl)]> requestOptions in
  let requestOptions := <["port" := of_nullable (port parsedUrl)]> requestOptions in
  let requestOptions := delete "url" requestOptions in
  request requestOptions.

(** The request headers: one header of the operation and the version of
    the protocol, the number 2. *)
Definition paypro_headers (name content : string) : value :=
  VObj [(name, VStr content); ("x-paypro-version", VNum (Num 2 0))].

(** [PaymentProtocol.prototype.verifyResponse].  The statements follow the
    source in its order: the three guards, the parse, the bypass, the read
    of the four headers and of the host, their checks, the lookup of the
    key, the digest, the domain, the network and the signature.  Once the
    digest has matched, [hash] is [actualHash], which is what the
    signature is verified over. *)
Definition verifyResponse (requestUrl rawBody headers : value)
    (checkNetwork unsafeBypassValidation : bool) : M Verified :=
  when (negb (truthy requestUrl)) throw_ (Error "Parameter requestUrl is required") ;;;
  when (negb (truthy rawBody)) throw_ (Error "Parameter rawBody is required") ;;;
  when (negb (truthy headers)) throw_ (Error "Parameter headers is required") ;;;
  responseData <- try_catch (lift (JSON_parse (ToString rawBody)))
                    (fun _ => throw (Error "Invalid JSON in response body")) ;;
  if unsafeBypassValidation
  then ret {| requestUrl := requestUrl; responseData := responseData; keyData := None |}
  else
  digest <- lift (get_prop headers "digest") ;;
  hash <- lift (digest_hash digest) ;;
  signature <- lift (get_prop headers "signature") ;;
  signatureType <- lift (get_prop headers "x-signature-type") ;;
  identity <- lift (get_prop headers "x-identity") ;;
  host <- try_catch (parsed <- lift (url_parse_value requestUrl) ;; ret (hostname parsed))
            (fun _ => ret None) ;;
  when (negb (truthy (of_nullable host))) throw_ (Error "Invalid requestUrl") ;;;
  let host := default "" host in
  when (negb (truthy signatureType)) throw_ (Error "Response missing x-signature-type header") ;;;
  signatureType <- expect_string signatureType (Error "Invalid x-signature-type header") ;;
  when (negb (String.eqb signatureType "ecc"))
    throw_ (Error ("Unknown signature type " +:+ signatureType)) ;;;
  when (negb (truthy signature)) throw_ (Error "Response missing signature header") ;;;
  signature <- expect_string signature (Error "Invalid signature header") ;;
  when (negb (truthy identity)) throw_ (Error "Response missing x-identity header") ;;;
  identity <- expect_string identity (Error "Invalid identity header") ;;
  trustedKeys <- this_trustedKeys ;;
  let found := trusted_lookup trustedKeys identity in
  when (match found with Missing => true | _ => false end)
    throw_ (Error ("Response signed by unknown key (" +:+ identity +:+
                   "), unable to validate")) ;;;
  actualHash <- match rawBody with
                | VStr text => ret (sha256_hex text)
                | _ => throw (TypeError "Data must be a string or a buffer")
                end ;;
  when (negb (match hash with VStr h => String.eqb h actualHash | _ => false end))
    throw_ (Error ("Response body hash does not match digest header. Actual: " +:+
                   actualHash +:+ " Expected: " +:+ ToString hash)) ;;;
  match found with
  | OwnKey key =>
      when (negb (includes (domains key) (VStr host)))
        throw_ (Error ("The key on the response (" +:+ identity +:+
                       ") is not trusted for domain " +:+ host)) ;;;
      (if checkNetwork then
         network <- lift (get_prop responseData "network") ;;
         when (negb (includes (networks key) network))
           throw_ (Error ("The key on the response is not trusted for transactions on the '"
                          +:+ ToString network +:+ "' network"))
       else ret tt) ;;;
      valid <- lift (secp256k1_verify (Buffer_from_hex actualHash)
                       (Buffer_from_hex signature)
                       (Buffer_from_hex (publicKey key))) ;;
      when (negb valid) throw_ (Error "Response signature invalid") ;;;
      ret {| requestUrl := requestUrl; responseData := responseData;
             keyData := Some key |}
  | _ => throw (TypeError "Cannot read property 'includes' of undefined")
  end.

Definition is_web_protocol (p : option string) : bool :=
  match p with
  | Some p => String.eqb p "http:" || String.eqb p "https:"
  | None => false
  end.

(** [PaymentProtocol.prototype.getPaymentOptions] *)
Definition getPaymentOptions (paymentUrl : value) (unsafeBypassValidation : bool)
  : M Verified :=
  paymentUrlObject <- lift (url_parse_value paymentUrl) ;;
  paymentUrl <-
    (if negb (is_web_protocol (protocol paymentUrlObject)) then
       let uriQuery := querystring_decode (query paymentUrlObject) in
       r <- lift (get_prop uriQuery "r") ;;
       if negb (truthy r) then throw (Error "Invalid payment protocol url")
       else ret r
     else ret paymentUrl) ;;
  reply <- _asyncRequest
             {[ "method" := VStr "GET";
                "url" := paymentUrl;
                "headers" := paypro_headers "Accept" "application/payment-options" ]} ;;
  verifyResponse paymentUrl (rawBody reply) (headers reply) false unsafeBypassValidation.

(** [PaymentProtocol.prototype.selectPaymentOption] *)
Definition selectPaymentOption (paymentUrl chain currency : value)
    (unsafeBypassValidation : bool) : M Verified :=
  reply <- _asyncRequest
             {[ "url" := paymentUrl;
                "method" := VStr "POST";
                "headers" := paypro_headers "Content-Type" "application/payment-request";
                "body" := VStr (JSON_stringify
                                  (VObj [("chain", chain); ("currency", currency)])) ]} ;;
  verifyResponse paymentUrl (rawBody reply) (headers reply) true unsafeBypassValidation.

(** [PaymentProtocol.prototype.verifyPaymentRequest]: the object returned
    has [responseData] for only property. *)
Definition verifyPaymentRequest (paymentUrl chain currency unsignedTransactions : value)
    (unsafeBypassValidation : bool) : M Verified :=
  reply <- _asyncRequest
             {[ "url" := paymentUrl;
                "method" := VStr "POST";
                "headers" := paypro_headers "Content-Type" "application/payment-verification";
                "body" := VStr (JSON_stringify
                                  (VObj [("chain", chain); ("currency", currency);
                                         ("transactions", unsignedTransactions)])) ]} ;;
  responseData <- lift (JSON_parse (ToString (rawBody reply))) ;;
  ret {| requestUrl := VUndefined; responseData := responseData; keyData := None |}.

(** [PaymentProtocol.prototype.sendSignedPayment] *)
Definition sendSignedPayment (paymentUrl chain currency signedTransactions : value)
    (unsafeBypassValidation : bool) : M Verified :=
  reply <- _asyncRequest
             {[ "url" := paymentUrl;
                "method" := VStr "POST";
                "headers" := paypro_headers "Content-Type" "application/payment";
                "body" := VStr (JSON_stringify
                                  (VObj [("chain", chain); ("currency", currency);
                                         ("transactions", signedTransactions)])) ]} ;;
  verifyResponse paymentUrl (rawBody reply) (headers reply) false unsafeBypassValidation.

End Client.

(** [new PaymentProtocol(requestOptions, trustedKeys)] *)
Definition new_PaymentProtocol (requestOptions : gmap string value)
    (trustedKeys : gmap string TrustedKey) : PaymentProtocol :=
  {| options := requestOptions ∪ {[ "agent" := VBool false ]};
     trustedKeys := trustedKeys |}.

(** ** A reference runtime

    [Node] implements the interface [Runtime] after the documented
    behaviour of Node.js and of the [secp256k1] package, so that the client
    can be run on concrete inputs.  The theorems about the client do not
    depend on it: they hold for every runtime. *)
Module Node.

(** *** [Buffer] and hexadecimal *)

Definition hex_value (c : ascii) : option Z :=
  let n := Z.of_N (N_of_ascii c) in
  if (48 <=? n) && (n <=? 57) then Some (n - 48)
  else if (97 <=? n) && (n <=? 102) then Some (n - 87)
  else if (65 <=? n) && (n <=? 70) then Some (n - 55)
  else None.

Definition byte_of_Z (n : Z) : Byte.byte :=
  default Byte.x00 (Byte.of_N (Z.to_N (n mod 256))).

Definition Z_of_byte (b : Byte.byte) : Z := Z.of_N (Byte.to_N b).

(** [Buffer.from(text, 'hex')]: pairs of digits are decoded up to the first
    pair that is not hexadecimal; a trailing single digit is dropped. *)
Fixpoint Buffer_from_hex (text : string) : list Byte.byte :=
  match text with
  | String hi (String lo rest) =>
      match hex_value hi, hex_value lo with
      | Some h, Some l => byte_of_Z (16 * h + l) :: Buffer_from_hex rest
      | _, _ => []
      end
  | _ => []
  end.

Definition hex_digit (n : Z) : ascii :=
  ascii_of_N (Z.to_N (if n <? 10 then 48 + n else 87 + n)).

(** [buffer.toString('hex')] *)
Fixpoint to_hex (bytes : list Z) : string :=
  match bytes with
  | [] => ""
  | b :: rest => String (hex_digit (b / 16)) (String (hex_digit (b mod 16)) (to_hex rest))
  end.

(** *** SHA-256 (FIPS 180-4) on 32-bit words held in [Z] *)

Definition w32 (x : Z) : Z := Z.land x 4294967295.
Definition add32 (x y : Z) : Z := w32 (x + y).
Definition rotr (n x : Z) : Z := Z.lor (Z.shiftr x n) (w32 (Z.shiftl x (32 - n))).
Definition Ch (x y z : Z) : Z := Z.lxor (Z.land x y) (Z.land (Z.lxor x 4294967295) z).
Definition Maj (x y z : Z) : Z :=
  Z.lxor (Z.lxor (Z.land x y) (Z.land x z)) (Z.land y z).
Definition Sigma0 (x : Z) : Z := Z.lxor (Z.lxor (rotr 2 x) (rotr 13 x)) (rotr 22 x).
Definition Sigma1 (x : Z) : Z := Z.lxor (Z.lxor (rotr 6 x) (rotr 11 x)) (rotr 25 x).
Definition sigma0 (x : Z) : Z := Z.lxor (Z.lxor (rotr 7 x) (rotr 18 x)) (Z.shiftr x 3).
Definition sigma1 (x : Z) : Z := Z.lxor (Z.lxor (rotr 17 x) (rotr 19 x)) (Z.shiftr x 10).

(** The constants are the first 32 bits of the fractional parts of the
    cube roots (for [K256]) and of the square roots (for [H256]) of the
    first primes. *)
Definition is_prime (n : Z) : bool :=
  (1 <? n) &&
  forallb (fun d => negb (n mod d =? 0))
    (map Z.of_nat (seq 2 (Z.to_nat (Z.sqrt n) - 1))).

Definition first_primes (count : nat) : list Z :=
  firstn count (filter is_prime (map Z.of_nat (seq 2 400))).

(** The greatest [r] between [lo] and [hi] with [r ^ 3 <= x], by bisection. *)
Fixpoint cube_root (fuel : nat) (lo hi x : Z) : Z :=
  match fuel with
  | O => lo
  | S fuel' =>
      if hi <=? lo then lo
      else
        let mid := (lo + hi + 1) / 2 in
        if mid * mid * mid <=? x then cube_root fuel' mid hi x
        else cube_root fuel' lo (mid - 1) x
  end.

Definition K256 : list Z :=
  Eval vm_compute in
    map (fun p => w32 (cube_root 64 0 (2 ^ 36) (p * 2 ^ 96))) (first_primes 64).

Definition H256 : list Z :=
  Eval vm_compute in map (fun p => w32 (Z.sqrt (p * 2 ^ 64))) (first_primes 8).

(** Big-endian bytes of [x], [n] of them. *)
Fixpoint be_bytes (n : nat) (x : Z) : list Z :=
  match n with
  | O => []
  | S n' => (Z.shiftr x (8 * Z.of_nat n')) mod 256 :: be_bytes n' x
  end.

Definition be_word (bytes : list Z) : Z :=
  fold_left (fun acc b => acc * 256 + b) bytes 0.

(** The message, the bit 1, zeros up to 56 modulo 64, and the length in
    bits on eight bytes. *)
Definition sha_pad (msg : list Z) : list Z :=
  let len := Z.of_nat (length msg) in
  let zeros := Z.to_nat ((55 - len) mod 64) in
  msg ++ [128] ++ repeat 0 zeros ++ be_bytes 8 (8 * len).

Fixpoint chunks_of (fuel n : nat) (l : list Z) : list (list Z) :=
  match fuel, l with
  | _, [] => []
  | O, _ => []
  | S fuel', _ => firstn n l :: chunks_of fuel' n (skipn n l)
  end.

(** The schedule is kept most recent word first: [W(t-2)] is at index 1,
    [W(t-7)] at 6, [W(t-15)] at 14 and [W(t-16)] at 15. *)
Fixpoint schedule (n : nat) (recent : list Z) : list Z :=
  match n with
  | O => recent
  | S n' =>
      let w i := nth i recent 0 in
      schedule n'
        (add32 (add32 (sigma1 (w 1%nat)) (w 6%nat))
               (add32 (sigma0 (w 14%nat)) (w 15%nat)) :: recent)
  end.

Definition message_schedule (block : list Z) : list Z :=
  rev (schedule 48 (rev (map be_word (chunks_of 16 4 block)))).

Definition round (s : list Z) (kw : Z * Z) : list Z :=
  match s with
  | [a; b; c; d; e; f; g; h] =>
      let t1 := add32 (add32 (add32 h (Sigma1 e)) (add32 (Ch e f g) (fst kw))) (snd kw) in
      let t2 := add32 (Sigma0 a) (Maj a b c) in
      [add32 t1 t2; a; b; c; add32 d t1; e; f; g]
  | _ => s
  end.

Definition compress (h : list Z) (block : list Z) : list Z :=
  let s := fold_left round (combine K256 (message_schedule block)) h in
  map (fun p => add32 (fst p) (snd p)) (combine h s).

Definition sha256 (msg : list Z) : list Z :=
  let blocks := chunks_of (length msg + 72) 64 (sha_pad msg) in
  flat_map (be_bytes 4) (fold_left compress blocks H256).

Definition bytes_of_string (s : string) : list Z :=
  map Z_of_byte (String.list_byte_of_string s).

(** [crypto.createHash('sha256').update(text, 'utf8').digest('hex')] *)
Definition sha256_hex (text : string) : string :=
  to_hex (sha256 (bytes_of_string text)).

(** *** ECDSA verification on secp256k1 (SEC 1, SEC 2)

    Field elements are [bigZ] so that the verification of a real signature
    evaluates in reasonable time. *)

Definition field_p : bigZ :=
  (2 ^ 256 - 2 ^ 32 - 977)%bigZ.
Definition order_n : bigZ :=
  BigZ.of_Z 0xFFFFFFFFFFFFFFFFFFFFFFFFFFFFFFFEBAAEDCE6AF48A03BBFD25E8CD0364141.
Definition G_x : bigZ :=
  BigZ.of_Z 0x79BE667EF9DCBBAC55A06295CE870B07029BFCDB2DCE28D959F2815B16F81798.
Definition G_y : bigZ :=
  BigZ.of_Z 0x483ADA7726A3C4655DA4FBFC0E1108A8FD17B448A68554199C47D08FFB10D4B8.

Definition fmul (a b : bigZ) : bigZ := ((a * b) mod field_p)%bigZ.
Definition fadd (a b : bigZ) : bigZ := ((a + b) mod field_p)%bigZ.
Definition fsub (a b : bigZ) : bigZ := ((a - b) mod field_p)%bigZ.

(** [b ^ e mod m] by squaring. *)
Fixpoint pow_mod (b : bigZ) (e : positive) (m : bigZ) : bigZ :=
  match e with
  | xH => (b mod m)%bigZ
  | xO e' => let r := pow_mod b e' m in ((r * r) mod m)%bigZ
  | xI e' => let r := pow_mod b e' m in ((((r * r) mod m) * b) mod m)%bigZ
  end.

(** The inverse modulo a prime [m], by Fermat's little theorem. *)
Definition inv_mod (a m : bigZ) : bigZ :=
  pow_mod a (Z.to_pos (BigZ.to_Z m - 2)) m.

(** A point in Jacobian coordinates [(X, Y, Z)], standing for the affine
    point [(X / Z^2, Y / Z^3)]; [Z = 0] is the point at infinity. *)
Definition jacobian : Type := bigZ * bigZ * bigZ.

Definition infinity : jacobian := (1, 1, 0)%bigZ.

Definition is_infinity (P : jacobian) : bool :=
  let '(_, _, z) := P in (z =? 0)%bigZ.

Definition double (P : jacobian) : jacobian :=
  let '(x, y, z) := P in
  if (y =? 0)%bigZ then infinity else
  let a := fmul x x in
  let b := fmul y y in
  let c := fmul b b in
  let xb := fadd x b in
  let d := fmul 2 (fsub (fsub (fmul xb xb) a) c) in
  let e := fmul 3 a in
  let f := fmul e e in
  let x3 := fsub f (fmul 2 d) in
  let y3 := fsub (fmul e (fsub d x3)) (fmul 8 c) in
  let z3 := fmul 2 (fmul y z) in
  (x3, y3, z3).

Definition add (P Q : jacobian) : jacobian :=
  if is_infinity P then Q else
  if is_infinity Q then P else
  let '(x1, y1, z1) := P in
  let '(x2, y2, z2) := Q in
  let z1z1 := fmul z1 z1 in
  let z2z2 := fmul z2 z2 in
  let u1 := fmul x1 z2z2 in
  let u2 := fmul x2 z1z1 in
  let s1 := fmul y1 (fmul z2 z2z2) in
  let s2 := fmul y2 (fmul z1 z1z1) in
  let h := fsub u2 u1 in
  let r := fsub s2 s1 in
  if (h =? 0)%bigZ then (if (r =? 0)%bigZ then double P else infinity) else
  let hh := fmul h h in
  let hhh := fmul h hh in
  let v := fmul u1 hh in
  let x3 := fsub (fsub (fmul r r) hhh) (fmul 2 v) in
  let y3 := fsub (fmul r (fsub v x3)) (fmul s1 hhh) in
  let z3 := fmul h (fmul z1 z2) in
  (x3, y3, z3).

Fixpoint scalar_mul_pos (k : positive) (P : jacobian) : jacobian :=
  match k with
  | xH => P
  | xO k' => double (scalar_mul_pos k' P)
  | xI k' => add (double (scalar_mul_pos k' P)) P
  end.

Definition scalar_mul (k : bigZ) (P : jacobian) : jacobian :=
  match BigZ.to_Z k with
  | Zpos k' => scalar_mul_pos k' P
  | _ => infinity
  end.

(** The affine abscissa of a finite point. *)
Definition affine_x (P : jacobian) : bigZ :=
  let '(x, _, z) := P in
  let zi := inv_mod z field_p in
  fmul x (fmul zi zi).

Definition on_curve (x y : bigZ) : bool :=
  (fmul y y =? fadd (fmul x (fmul x x)) 7)%bigZ.

Definition big_of_bytes (bytes : list Byte.byte) : bigZ :=
  BigZ.of_Z (be_word (map Z_of_byte bytes)).

(** A public key is 33 bytes (02 or 03, then X) or 65 bytes (04, then X and
    Y); the point must lie on the curve. *)
Definition parse_public_key (bytes : list Byte.byte) : option (bigZ * bigZ) :=
  match bytes with
  | tag :: rest =>
      let t := Z_of_byte tag in
      if (length rest =? 32)%nat && ((t =? 2) || (t =? 3)) then
        let x := big_of_bytes rest in
        let y2 := fadd (fmul x (fmul x x)) 7 in
        let y := pow_mod y2 (Z.to_pos ((BigZ.to_Z field_p + 1) / 4)) field_p in
        let y := if Bool.eqb (Z.odd (BigZ.to_Z y)) (Z.odd t) then y else fsub 0 y in
        if (x <? field_p)%bigZ && on_curve x y then Some (x, y) else None
      else if (length rest =? 64)%nat && (t =? 4) then
        let x := big_of_bytes (firstn 32 rest) in
        let y := big_of_bytes (skipn 32 rest) in
        if (x <? field_p)%bigZ && (y <? field_p)%bigZ && on_curve x y
        then Some (x, y) else None
      else None
  | [] => None
  end.

(** [secp256k1.verify(message, signature, publicKey)]: the arguments are
    checked for length, the signature [r || s] and the key are parsed, a
    signature with a high [s] is refused, and the ECDSA equation is
    checked with the message taken as the digest. *)
Definition secp256k1_verify (message signature publicKey : list Byte.byte)
  : completion bool :=
  if negb (length message =? 32)%nat then Throw (LibError "message length is invalid")
  else if negb (length signature =? 64)%nat
  then Throw (LibError "signature length is invalid")
  else if negb ((length publicKey =? 33)%nat || (length publicKey =? 65)%nat)
  then Throw (LibError "public key length is invalid")
  else
    let r := big_of_bytes (firstn 32 signature) in
    let s := big_of_bytes (skipn 32 signature) in
    if (order_n <=? r)%bigZ || (order_n <=? s)%bigZ
    then Throw (LibError "couldn't parse signature")
    else if (order_n / 2 <? s)%bigZ || (r =? 0)%bigZ || (s =? 0)%bigZ
    then Return false
    else
      match parse_public_key publicKey with
      | None => Throw (LibError "the public key could not be parsed or is invalid")
      | Some (qx, qy) =>
          let z := big_of_bytes message in
          let w := inv_mod s order_n in
          let u1 := ((z * w) mod order_n)%bigZ in
          let u2 := ((r * w) mod order_n)%bigZ in
          let R := add (scalar_mul u1 (G_x, G_y, 1%bigZ))
                       (scalar_mul u2 (qx, qy, 1%bigZ)) in
          if is_infinity R then Return false
          else Return ((affine_x R mod order_n =? r)%bigZ)
      end.

(** *** [JSON.parse] (ECMA-404) *)

Definition code (c : ascii) : Z := Z.of_N (N_of_ascii c).
Definition char (n : Z) : ascii := ascii_of_N (Z.to_N n).

Definition is_ws (c : ascii) : bool :=
  let n := code c in (n =? 32) || (n =? 9) || (n =? 10) || (n =? 13).

Definition is_digit (c : ascii) : bool :=
  let n := code c in (48 <=? n) && (n <=? 57).

Fixpoint skip_ws (s : string) : string :=
  match s with
  | String c rest => if is_ws c then skip_ws rest else s
  | EmptyString => s
  end.

(** The longest prefix whose characters satisfy [f], and what follows. *)
Fixpoint span (f : ascii -> bool) (s : string) : string * string :=
  match s with
  | String c rest =>
      if f c then let '(taken, more) := span f rest in (String c taken, more)
      else ("", s)
  | EmptyString => ("", "")
  end.

Fixpoint strip_prefix (pre s : string) : option string :=
  match pre, s with
  | EmptyString, _ => Some s
  | String a pre', String b s' => if Ascii.eqb a b then strip_prefix pre' s' else None
  | _, _ => None
  end.

Definition digits_value (digits : string) : Z :=
  fold_left (fun acc c => 10 * acc + (code c - 48)) (list_ascii_of_string digits) 0.

(** Four hexadecimal digits. *)
Definition hex4 (s : string) : option (Z * string) :=
  match s with
  | String a (String b (String c (String d rest))) =>
      match hex_value a, hex_value b, hex_value c, hex_value d with
      | Some a, Some b, Some c, Some d => Some (((a * 16 + b) * 16 + c) * 16 + d, rest)
      | _, _, _, _ => None
      end
  | _ => None
  end.

Definition utf8 (cp : Z) : string :=
  if cp <? 128 then String (char cp) ""
  else if cp <? 2048 then
    String (char (192 + cp / 64)) (String (char (128 + cp mod 64)) "")
  else if cp <? 65536 then
    String (char (224 + cp / 4096))
      (String (char (128 + (cp / 64) mod 64)) (String (char (128 + cp mod 64)) ""))
  else
    String (char (240 + cp / 262144))
      (String (char (128 + (cp / 4096) mod 64))
         (String (char (128 + (cp / 64) mod 64)) (String (char (128 + cp mod 64)) ""))).

(** The characters of a string literal after its opening quote, up to the
    closing quote.  An escaped surrogate pair is one code point; a lone
    surrogate is encoded like any other code unit. *)
Fixpoint parse_string (fuel : nat) (s : string) : option (string * string) :=
  match fuel with
  | O => None
  | S fuel' =>
      match s with
      | EmptyString => None
      | String c rest =>
          let n := code c in
          if n =? 34 then Some ("", rest)
          else if n <? 32 then None
          else if n =? 92 then
            match rest with
            | EmptyString => None
            | String e rest' =>
                let simple x :=
                  match parse_string fuel' rest' with
                  | Some (tail, more) => Some (String (char x) tail, more)
                  | None => None
                  end in
                let m := code e in
                if (m =? 34) || (m =? 92) || (m =? 47) then simple m
                else if m =? 98 then simple 8
                else if m =? 102 then simple 12
                else if m =? 110 then simple 10
                else if m =? 114 then simple 13
                else if m =? 116 then simple 9
                else if m =? 117 then
                  match hex4 rest' with
                  | None => None
                  | Some (hi, after) =>
                      let pair :=
                        if (55296 <=? hi) && (hi <=? 56319) then
                          match strip_prefix "\u" after with
                          | Some low =>
                              match hex4 low with
                              | Some (lo, after') =>
                                  if (56320 <=? lo) && (lo <=? 57343)
                                  then Some (65536 + (hi - 55296) * 1024 + (lo - 56320),
                                             after')
                                  else None
                              | None => None
                              end
                          | None => None
                          end
                        else None in
                      let '(cp, after) := default (hi, after) pair in
                      match parse_string fuel' after with
                      | Some (tail, more) => Some (utf8 cp +:+ tail, more)
                      | None => None
                      end
                  end
                else None
            end
          else
            match parse_string fuel' rest with
            | Some (tail, more) => Some (String c tail, more)
            | None => None
            end
      end
  end.

(** A number: an optional minus, then 0 or a digit from 1 to 9 with more
    digits, then an optional fraction (a point and digits) and an optional
    exponent (e or E, a sign, digits). *)
Definition parse_number (s : string) : option (number * string) :=
  let '(negative, s) :=
    match s with
    | String "-" rest => (true, rest)
    | _ => (false, s)
    end in
  let integer :=
    match s with
    | String "0" rest => Some ("0", rest)
    | _ => let '(ds, rest) := span is_digit s in
           if String.eqb ds "" then None else Some (ds, rest)
    end in
  match integer with
  | None => None
  | Some (int, s) =>
      let fraction :=
        match s with
        | String "." rest =>
            let '(ds, rest') := span is_digit rest in
            if String.eqb ds "" then None else Some (ds, rest')
        | _ => Some ("", s)
        end in
      match fraction with
      | None => None
      | Some (frac, s) =>
          let exponent :=
            match s with
            | String e rest =>
                if (code e =? 101) || (code e =? 69) then
                  let '(minus, rest) :=
                    match rest with
                    | String "-" r => (true, r)
                    | String "+" r => (false, r)
                    | _ => (false, rest)
                    end in
                  let '(ds, rest') := span is_digit rest in
                  if String.eqb ds "" then None
                  else Some (if minus then - digits_value ds else digits_value ds, rest')
                else Some (0, s)
            | _ => Some (0, s)
            end in
          match exponent with
          | None => None
          | Some (e, s) =>
              let m := digits_value (int +:+ frac) in
              Some (Num (if negative then - m else m)
                        (e - Z.of_nat (String.length frac)), s)
          end
      end
  end.

Fixpoint parse_value (fuel : nat) (s : string) : option (value * string) :=
  match fuel with
  | O => None
  | S fuel' =>
      let s := skip_ws s in
      match s with
      | EmptyString => None
      | String c rest =>
          let n := code c in
          if n =? 123 then
            match skip_ws rest with
            | String "}" rest' => Some (VObj [], rest')
            | _ => parse_members fuel' [] rest
            end
          else if n =? 91 then
            match skip_ws rest with
            | String "]" rest' => Some (VArr [], rest')
            | _ => parse_elements fuel' [] rest
            end
          else if n =? 34 then
            match parse_string (String.length rest) rest with
            | Some (text, rest') => Some (VStr text, rest')
            | None => None
            end
          else
            match strip_prefix "true" s, strip_prefix "false" s, strip_prefix "null" s with
            | Some rest', _, _ => Some (VBool true, rest')
            | _, Some rest', _ => Some (VBool false, rest')
            | _, _, Some rest' => Some (VNull, rest')
            | _, _, _ =>
                match parse_number s with
                | Some (num, rest') => Some (VNum num, rest')
                | None => None
                end
            end
      end
  end
with parse_elements (fuel : nat) (seen : list value) (s : string)
  : option (value * string) :=
  match fuel with
  | O => None
  | S fuel' =>
      match parse_value fuel' s with
      | None => None
      | Some (v, rest) =>
          match skip_ws rest with
          | String "," rest' => parse_elements fuel' (v :: seen) rest'
          | String "]" rest' => Some (VArr (rev (v :: seen)), rest')
          | _ => None
          end
      end
  end
with parse_members (fuel : nat) (seen : list (string * value)) (s : string)
  : option (value * string) :=
  match fuel with
  | O => None
  | S fuel' =>
      match skip_ws s with
      | String q rest =>
          if code q =? 34 then
            match parse_string (String.length rest) rest with
            | None => None
            | Some (key, rest) =>
                match skip_ws rest with
                | String ":" rest =>
                    match parse_value fuel' rest with
                    | None => None
                    | Some (v, rest) =>
                        match skip_ws rest with
                        | String "," rest' => parse_members fuel' (assoc_set key v seen) rest'
                        | String "}" rest' => Some (VObj (assoc_set key v seen), rest')
                        | _ => None
                        end
                    end
                | _ => None
                end
            end
          else None
      | EmptyString => None
      end
  end.

(** [JSON.parse(text)]: one value, with white space around it and nothing
    else.  Every recursive call follows at least one consumed character
    or is the first on its element, so twice the length of the text is
    fuel enough.  A number keeps the exact decimal of its literal, where
    [JSON.parse] rounds it to binary64, and every syntax error has one
    text for message. *)
Definition JSON_parse (text : string) : completion value :=
  match parse_value (2 * String.length text + 2) text with
  | Some (v, rest) =>
      if String.eqb (skip_ws rest) "" then Return v
      else Throw (SyntaxError "Unexpected token in JSON")
  | None => Throw (SyntaxError "Unexpected token in JSON")
  end.

(** *** [String(number)] and [JSON.stringify] *)

(** Drop the trailing zeros of a mantissa that has decimals left. *)
Fixpoint normalise (fuel : nat) (m decimals : Z) : Z * Z :=
  match fuel with
  | O => (m, decimals)
  | S fuel' =>
      if (0 <? decimals) && (m mod 10 =? 0) then normalise fuel' (m / 10) (decimals - 1)
      else (m, decimals)
  end.

Definition pad_left (width : nat) (s : string) : string :=
  string_of_list_ascii (repeat "0"%char (width - String.length s)) +:+ s.

(** Plain decimal notation, which is what JavaScript prints for a number
    between 1e-6 and 1e21 that binary64 holds exactly. *)
Definition Number_toString (n : number) : string :=
  let m := num_m n in
  let e := num_e n in
  if m =? 0 then "0"
  else if 0 <=? e then pretty (m * 10 ^ e)
  else
    let '(m, decimals) := normalise (Z.to_nat (- e)) m (- e) in
    if decimals =? 0 then pretty m
    else
      let scale := 10 ^ decimals in
      (if m <? 0 then "-" else "") +:+ pretty (Z.abs m / scale) +:+ "." +:+
      pad_left (Z.to_nat decimals) (pretty (Z.abs m mod scale)).

Definition quote_char : ascii := char 34.

Fixpoint escape (s : string) : string :=
  match s with
  | EmptyString => ""
  | String c rest =>
      let n := code c in
      (if n =? 34 then String "\" (String quote_char "")
       else if n =? 92 then "\\"
       else if n =? 8 then "\b"
       else if n =? 12 then "\f"
       else if n =? 10 then "\n"
       else if n =? 13 then "\r"
       else if n =? 9 then "\t"
       else if n <? 32 then "\u00" +:+ String (hex_digit (n / 16)) (String (hex_digit (n mod 16)) "")
       else String c "") +:+ escape rest
  end.

Definition quote (s : string) : string :=
  String quote_char (escape s) +:+ String quote_char "".

(** [JSON.stringify(v)] for an object or an array [v]: a member whose
    value is [undefined] is left out, an [undefined] element is [null]. *)
Fixpoint JSON_stringify (v : value) : string :=
  match v with
  | VUndefined => "undefined"
  | VNull => "null"
  | VBool true => "true"
  | VBool false => "false"
  | VNum n => Number_toString n
  | VStr s => quote s
  | VArr xs =>
      "[" +:+ String.concat ","
                (map (fun x => match x with
                               | VUndefined => "null"
                               | _ => JSON_stringify x
                               end) xs) +:+ "]"
  | VObj fields =>
      "{" +:+ String.concat ","
                (flat_map (fun '(k, x) => match x with
                                          | VUndefined => []
                                          | _ => [quote k +:+ ":" +:+ JSON_stringify x]
                                          end) fields) +:+ "}"
  end.

(** *** [url.parse] (the legacy parser)

    The reference covers URLs written in printable ASCII without white
    space, back-slashes or brackets: it does not trim, escape or validate.
    On those it follows [Url.prototype.parse]: a protocol is lower-cased; a
    host is looked for after [//], and without [//] too when the protocol is
    not one of the slashed ones; the host ends at the first [/], [?] or [#],
    loses what precedes its last [@] and its port, and is lower-cased.
    Node.js also ends the host at the first character that cannot be part
    of a host name, and percent-escapes the path; the reference does
    neither, and is run only on URLs on which this makes no difference. *)

Definition lower (c : ascii) : ascii :=
  let n := code c in if (65 <=? n) && (n <=? 90) then char (n + 32) else c.

Definition lower_string (s : string) : string :=
  string_of_list_ascii (map lower (list_ascii_of_string s)).

Definition is_protocol_char (c : ascii) : bool :=
  let n := code c in
  ((97 <=? n) && (n <=? 122)) || ((65 <=? n) && (n <=? 90)) || is_digit c
  || (n =? 46) || (n =? 43) || (n =? 45).

Definition slashed_protocol (p : string) : bool :=
  existsb (String.eqb p) ["http:"; "https:"; "ftp:"; "gopher:"; "file:"].

Definition is_host_end (c : ascii) : bool :=
  let n := code c in (n =? 47) || (n =? 63) || (n =? 35).

(** What follows the last [@] of [s], if there is one. *)
Fixpoint after_last_at (s : string) : option string :=
  match s with
  | EmptyString => None
  | String c rest =>
      match after_last_at rest with
      | Some tail => Some tail
      | None => if code c =? 64 then Some rest else None
      end
  end.

(** The host without a final [:digits], and the digits. *)
Fixpoint split_port (host : string) : string * option string :=
  match host with
  | EmptyString => ("", None)
  | String c rest =>
      if (code c =? 58) && forallb is_digit (list_ascii_of_string rest)
      then ("", if String.eqb rest "" then None else Some rest)
      else let '(name, port) := split_port rest in (String c name, port)
  end.

Definition split_at (f : ascii -> bool) (s : string) : string * option string :=
  let '(before, rest) := span (fun c => negb (f c)) s in
  match rest with
  | String _ after => (before, Some after)
  | EmptyString => (before, None)
  end.

Definition url_parse (text : string) : completion Url :=
  let '(proto, rest) :=
    let '(name, after) := span is_protocol_char text in
    match after with
    | String ":" after' =>
        if String.eqb name "" then (None, text)
        else (Some (lower_string name +:+ ":"), after')
    | _ => (None, text)
    end in
  let hostless := match proto with Some "javascript:" => true | _ => false end in
  let slashes :=
    match proto, strip_prefix "//" rest with
    | Some _, Some _ => true
    | _, _ => false
    end in
  let rest := if slashes && negb hostless
              then default rest (strip_prefix "//" rest) else rest in
  let with_host :=
    negb hostless &&
    (slashes || match proto with Some p => negb (slashed_protocol p) | None => false end) in
  let '(host, rest) :=
    if with_host then
      let '(authority, rest) := span (fun c => negb (is_host_end c)) rest in
      let '(name, port) := split_port (default authority (after_last_at authority)) in
      (Some (lower_string name, port), rest)
    else (None, rest) in
  let '(rest, _) := split_at (fun c => code c =? 35) rest in
  let '(pathname, query) := split_at (fun c => code c =? 63) rest in
  let pathname :=
    if String.eqb pathname "" then
      match proto, host with
      | Some p, Some (name, _) =>
          if slashed_protocol p && negb (String.eqb name "") then Some "/" else None
      | _, _ => None
      end
    else Some pathname in
  let search := match query with Some q => Some ("?" +:+ q) | None => None end in
  Return {| protocol := proto;
            hostname := match host with Some (name, _) => Some name | None => None end;
            port := match host with Some (_, port) => port | None => None end;
            path := match pathname, search with
                    | None, None => None
                    | _, _ => Some (default "" pathname +:+ default "" search)
                    end;
            query := query |}.

(** *** [querystring.decode] *)

(** [querystring.unescape] after [+] has become a space: a [%] followed by
    two hexadecimal digits is the byte they spell. *)
Fixpoint unescape (s : string) : string :=
  match s with
  | EmptyString => ""
  | String c rest =>
      if code c =? 43 then String " " (unescape rest)
      else if code c =? 37 then
        match rest with
        | String hi (String lo rest') =>
            match hex_value hi, hex_value lo with
            | Some h, Some l => String (char (16 * h + l)) (unescape rest')
            | _, _ => String c (unescape rest)
            end
        | _ => String c (unescape rest)
        end
      else String c (unescape rest)
  end.

Fixpoint split_on (sep : Z) (s : string) : list string :=
  match s with
  | EmptyString => [""]
  | String c rest =>
      if code c =? sep then "" :: split_on sep rest
      else match split_on sep rest with
           | [] => [String c ""]
           | piece :: pieces => String c piece :: pieces
           end
  end.

(** A key seen again turns its value into the array of its values. *)
Definition add_pair (fields : list (string * value)) (k v : string)
  : list (string * value) :=
  match assoc k fields with
  | None => fields ++ [(k, VStr v)]
  | Some (VArr vs) => assoc_set k (VArr (vs ++ [VStr v])) fields
  | Some old => assoc_set k (VArr [old; VStr v]) fields
  end.

(** [querystring.decode(query)]: the pairs are separated by [&], key and
    value by the first [=]; an empty pair is skipped, at most 1000 pairs
    are read, and anything but a non-empty string gives the empty object. *)
Definition querystring_decode (query : option string) : value :=
  match query with
  | None => VObj []
  | Some text =>
      let pairs := filter (fun piece => negb (String.eqb piece ""))
                     (split_on 38 text) in
      VObj (fold_left
              (fun fields piece =>
                 let '(k, v) := split_at (fun c => code c =? 61) piece in
                 add_pair fields (unescape k) (unescape (default "" v)))
              (firstn 1000 pairs) [])
  end.

(** *** The runtime over a given network *)

Definition runtime (network : gmap string value -> option string -> Outcome)
  : Runtime :=
  Build_Runtime JSON_parse JSON_stringify Number_toString url_parse
    querystring_decode sha256_hex Buffer_from_hex secp256k1_verify network.

End Node.

(** ** Vocabulary of the statements *)

Section Vocabulary.
Context `{Runtime}.
Local Open Scope js_scope.

(** The response presents itself well: all that [verifyResponse] asks of
    its arguments and of the four headers before it compares the digest.
    [hash] is the hash component of the digest header, [host] the host
    name of the request URL and [key] the trusted key filed under the
    identity header. *)
Record Presented (w : World) (url body hdrs : value) (text : string) (data : value)
    (host hash signature identity : string) (key : TrustedKey) : Prop := {
  presented_url :
    exists u parsed, url = VStr u /\ u <> "" /\
                     url_parse u = Return parsed /\ hostname parsed = Some host;
  presented_host : host <> "";
  presented_body : body = VStr text /\ text <> "";
  presented_json : JSON_parse text = Return data;
  presented_digest :
    exists digest, get_prop hdrs "digest" = Return (VStr digest) /\
                   nth_error (split_eq digest) 1 = Some hash;
  presented_type : get_prop hdrs "x-signature-type" = Return (VStr "ecc");
  presented_signature :
    get_prop hdrs "signature" = Return (VStr signature) /\ signature <> "";
  presented_identity :
    get_prop hdrs "x-identity" = Return (VStr identity) /\ identity <> "";
  presented_key : trustedKeys (self w) !! identity = Some key
}.

(** The part of [verifyResponse] that follows a good presentation: the
    digest, the domain, the network and the signature, in this order. *)
Definition checks (url : value) (text : string) (data : value)
    (host hash signature identity : string) (key : TrustedKey) (checkNetwork : bool)
  : M Verified :=
  let actualHash := sha256_hex text in
  when (negb (String.eqb hash actualHash))
    throw_ (Error ("Response body hash does not match digest header. Actual: " +:+
                   actualHash +:+ " Expected: " +:+ hash)) ;;;
  when (negb (includes (domains key) (VStr host)))
    throw_ (Error ("The key on the response (" +:+ identity +:+
                   ") is not trusted for domain " +:+ host)) ;;;
  (if checkNetwork then
     network <- lift (get_prop data "network") ;;
     when (negb (includes (networks key) network))
       throw_ (Error ("The key on the response is not trusted for transactions on the '"
                      +:+ ToString network +:+ "' network"))
   else ret tt) ;;;
  valid <- lift (secp256k1_verify (Buffer_from_hex actualHash)
                   (Buffer_from_hex signature)
                   (Buffer_from_hex (publicKey key))) ;;
  when (negb valid) throw_ (Error "Response signature invalid") ;;;
  ret {| requestUrl := url; responseData := data; keyData := Some key |}.

(** The options each operation hands to [_asyncRequest]. *)
Definition options_request (paymentUrl : value) : gmap string value :=
  {[ "method" := VStr "GET";
     "url" := paymentUrl;
     "headers" := paypro_headers "Accept" "application/payment-options" ]}.

Definition selection_request (paymentUrl chain currency : value) : gmap string value :=
  {[ "url" := paymentUrl;
     "method" := VStr "POST";
     "headers" := paypro_headers "Content-Type" "application/payment-request";
     "body" := VStr (JSON_stringify (VObj [("chain", chain); ("currency", currency)])) ]}.

Definition verification_request (paymentUrl chain currency transactions : value)
  : gmap string value :=
  {[ "url" := paymentUrl;
     "method" := VStr "POST";
     "headers" := paypro_headers "Content-Type" "application/payment-verification";
     "body" := VStr (JSON_stringify
                       (VObj [("chain", chain); ("currency", currency);
                              ("transactions", transactions)])) ]}.

Definition payment_request (paymentUrl chain currency transactions : value)
  : gmap string value :=
  {[ "url" := paymentUrl;
     "method" := VStr "POST";
     "headers" := paypro_headers "Content-Type" "application/payment";
     "body" := VStr (JSON_stringify
                       (VObj [("chain", chain); ("currency", currency);
                              ("transactions", transactions)])) ]}.

(** What [_asyncRequest] hands to [https.request] for the URL [target]. *)
Definition wire_options (options : gmap string value) (this_options : gmap string value)
    (target : Url) : gmap string value :=
  delete "url"
    (<["port" := of_nullable (port target)]>
       (<["path" := of_nullable (path target)]>
          (<["hostname" := of_nullable (hostname target)]> (options ∪ this_options)))).

(** A call of one of the five methods of the client, and a session of
    such calls, each started in the world the previous one left. *)
Inductive call :=
| GetPaymentOptions (paymentUrl : value) (bypass : bool)
| SelectPaymentOption (paymentUrl chain currency : value) (bypass : bool)
| VerifyPaymentRequest (paymentUrl chain currency unsignedTransactions : value)
    (bypass : bool)
| SendSignedPayment (paymentUrl chain currency signedTransactions : value)
    (bypass : bool)
| VerifyResponse (requestUrl rawBody headers : value) (checkNetwork bypass : bool).

Definition invoke (c : call) : M Verified :=
  match c with
  | GetPaymentOptions paymentUrl bypass => getPaymentOptions paymentUrl bypass
  | SelectPaymentOption paymentUrl chain currency bypass =>
      selectPaymentOption paymentUrl chain currency bypass
  | VerifyPaymentRequest paymentUrl chain currency transactions bypass =>
      verifyPaymentRequest paymentUrl chain currency transactions bypass
  | SendSignedPayment paymentUrl chain currency transactions bypass =>
      sendSignedPayment paymentUrl chain currency transactions bypass
  | VerifyResponse requestUrl rawBody headers checkNetwork bypass =>
      verifyResponse requestUrl rawBody headers checkNetwork bypass
  end.

Fixpoint session (calls : list call) (w : World) : World :=
  match calls with
  | [] => w
  | c :: rest => session rest (snd (invoke c w))
  end.

(** A computation that leaves the world as it is, and one that leaves the
    client object as it is. *)
Definition quiet {A} (m : M A) : Prop := forall w, snd (m w) = w.
Definition keeps_self {A} (m : M A) : Prop := forall w, self (snd (m w)) = self w.

(** The identity a response claims, and the trust store cut down to the
    entry of that identity. *)
Definition claimed_identity (hdrs : value) : option string :=
  match get_prop hdrs "x-identity" with
  | Return (VStr identity) => Some identity
  | _ => None
  end.

Definition only_entry (identity : option string) (store : gmap string TrustedKey)
  : gmap string TrustedKey :=
  match identity with
  | Some identity =>
      match store !! identity with
      | Some key => {[ identity := key ]}
      | None => ∅
      end
  | None => ∅
  end.

Definition with_store (store : gmap string TrustedKey) (w : World) : World :=
  {| self := {| options := options (self w); trustedKeys := store |};
     wire := wire w |}.

End Vocabulary.

(** [b] is [a] with exactly one byte changed. *)
Fixpoint changed_one_byte (a b : string) : bool :=
  match a, b with
  | String x a', String y b' =>
      if Ascii.eqb x y then changed_one_byte a' b' else String.eqb a' b'
  | _, _ => false
  end.

(** ** A merchant, for running the client

    The response body is the one of the specification's end-to-end example;
    the key pair and the signature were generated for it. *)
Module Example.

Definition merchant_key : TrustedKey :=
  {| owner := "Merchant";
     publicKey := "02ef04835cc3534e8cde69c9f754a94b0c9a2ceb0fe228d4d04e7a786fe3f2da6b";
     domains := ["merchant.example"];
     networks := ["main"] |}.

Definition store : gmap string TrustedKey := {[ "id1" := merchant_key ]}.

(** The text [{"network":"main"}]. *)
Definition body : string :=
  "{" +:+ Node.quote "network" +:+ ":" +:+ Node.quote "main" +:+ "}".

(** The same text with its last byte changed: [{"network":"main"]]. *)
Definition broken_body : string :=
  "{" +:+ Node.quote "network" +:+ ":" +:+ Node.quote "main" +:+ "]".

(** The same text with one byte of the network name changed:
    [{"network":"maim"}]. *)
Definition other_body : string :=
  "{" +:+ Node.quote "network" +:+ ":" +:+ Node.quote "maim" +:+ "}".

Definition digest : string :=
  "2d8b5a3901cc752a0607e9500adf3b3a4a8b1aa5f30fcf8592ff6a88ffa99cb0".

Definition signature : string :=
  "d79cb8fbf1c5711bed38b9bf473c4379a3b025fd509d954157e59407c3af6c9d" +:+
  "1fa467d3d08c513cb7c04256411305a214eea722e6edd4f3f336e996f00daae7".

Definition signed_headers : value :=
  VObj [("digest", VStr ("sha-256=" +:+ digest));
        ("signature", VStr signature);
        ("x-signature-type", VStr "ecc");
        ("x-identity", VStr "id1")].

Definition headers_without (name : string) : value :=
  VObj (filter (fun kv => negb (String.eqb (fst kv) name))
          (match signed_headers with VObj fields => fields | _ => [] end)).

Definition url : string := "https://merchant.example/pay".

(** The merchant answers every request with the signed body; the second
    server answers with the same body and no header of the protocol. *)
Definition merchant (_ : gmap string value) (_ : option string) : Outcome :=
  Response 200 signed_headers [body].

Definition unsigned (_ : gmap string value) (_ : option string) : Outcome :=
  Response 200 (VObj [("content-type", VStr "application/json")]) [body].

(** A second response of the same merchant, signed as well, for a network
    the key is not trusted for: [{"network":"test"}]. *)
Definition test_body : string :=
  "{" +:+ Node.quote "network" +:+ ":" +:+ Node.quote "test" +:+ "}".

Definition test_digest : string :=
  "70e0916151f9e06ea25742fc1ce555525390f072583b339ce80de5f0eba0f273".

Definition test_signature : string :=
  "17f2e8be7047317e72536bda3fdf2bc257bd3487429e1481bc5998fa4e220ba8" +:+
  "4f5d69a719276be4221502785c3607bd5e8da46187a79a3531ce0764fba319e9".

Definition test_headers : value :=
  VObj [("digest", VStr ("sha-256=" +:+ test_digest));
        ("signature", VStr test_signature);
        ("x-signature-type", VStr "ecc");
        ("x-identity", VStr "id1")].

Definition testnet (_ : gmap string value) (_ : option string) : Outcome :=
  Response 200 test_headers [test_body].

Definition transactions : value :=
  VArr [VObj [("tx", VStr "0200000001"); ("weightedSize", VNum (Num 225 0))]].

Definition client : PaymentProtocol :=
  new_PaymentProtocol {[ "rejectUnauthorized" := VBool false ]} store.

Definition world : World := {| self := client; wire := [] |}.

(** The reference runtime facing the merchant, the merchant's test
    network, and a server that signs nothing. *)
Definition node : Runtime := Node.runtime merchant.
Definition node_test : Runtime := Node.runtime testnet.
Definition node_unsigned : Runtime := Node.runtime unsigned.

(** The merchant's response, verified. *)
Definition verified : Verified :=
  {| requestUrl := VStr url;
     responseData := VObj [("network", VStr "main")];
     keyData := Some merchant_key |}.

(** A third response of the same merchant, signed as well: the body
    [null], which is valid JSON. *)
Definition null_body : string := "null".

Definition null_digest : string :=
  "74234e98afe7498fb5daf1f36ac2d78acc339464f950703b8c019892f982b90b".

Definition null_signature : string :=
  "8e2e2b0d4de49ea00fb226b7ed1712c93bffcdab2111159b3ba21601acbcdee0" +:+
  "0424a7ce0f0b1b7be908e22eb0fb6e60ae91d47420fa0c690f2689f131c5a1d5".

Definition null_headers : value :=
  VObj [("digest", VStr ("sha-256=" +:+ null_digest));
        ("signature", VStr null_signature);
        ("x-signature-type", VStr "ecc");
        ("x-identity", VStr "id1")].

Definition nullnet (_ : gmap string value) (_ : option string) : Outcome :=
  Response 200 null_headers [null_body].

Definition node_null : Runtime := Node.runtime nullnet.

Definition verified_null : Verified :=
  {| requestUrl := VStr url; responseData := VNull; keyData := Some merchant_key |}.

(** Payment URIs: one that gives [r] twice, one that gives another
    parameter and no [r], and one whose [r] is the URL of the merchant
    with [http:] for protocol. *)
Definition twice_uri : string := "bitcoin:?r=" +:+ url +:+ "&r=" +:+ url.
Definition no_r_uri : string := "bitcoin:?amount=1".
Definition http_uri : string := "bitcoin:?r=http://merchant.example/pay".

End Example.

(** ** Vocabulary of the transport *)

Section Transport.
Context `{Runtime}.
Local Open Scope js_scope.

(** What [verifyResponse] has been given before it looks at the three
    header checks: a request URL with a host, a body that parses, and a
    digest header that is a string. *)
Record Received (url body hdrs : value) (data : value) (host digest : string) : Prop := {
  received_url :
    exists u parsed, url = VStr u /\ u <> "" /\
                     url_parse u = Return parsed /\ hostname parsed = Some host;
  received_host : host <> "";
  received_body : truthy body = true;
  received_json : JSON_parse (ToString body) = Return data;
  received_digest : get_prop hdrs "digest" = Return (VStr digest)
}.

(** How the promise of [_asyncRequest] settles on the outcome of the
    exchange. *)
Definition settlement (o : Outcome) : completion Reply :=
  match o with
  | SocketError msg => Throw (NetError msg)
  | Response statusCode responseHeaders chunks =>
      if statusCode =? 200
      then Return {| rawBody := VStr (String.concat "" chunks);
                     headers := responseHeaders |}
      else Throw (Error (String.concat "" chunks))
  end.

(** What follows the reply in each operation. *)
Definition continuation (c : call) (k : Reply -> M Verified) : Prop :=
  match c with
  | GetPaymentOptions _ bypass =>
      exists target,
        k = fun reply => verifyResponse target (rawBody reply) (headers reply) false bypass
  | SelectPaymentOption paymentUrl _ _ bypass =>
      k = fun reply => verifyResponse paymentUrl (rawBody reply) (headers reply) true bypass
  | VerifyPaymentRequest _ _ _ _ _ =>
      k = fun reply =>
            responseData <- lift (JSON_parse (ToString (rawBody reply))) ;;
            ret {| requestUrl := VUndefined; responseData := responseData;
                   keyData := None |}
  | SendSignedPayment paymentUrl _ _ _ bypass =>
      k = fun reply => verifyResponse paymentUrl (rawBody reply) (headers reply) false bypass
  | VerifyResponse _ _ _ _ _ => False
  end.


(** The three operations that verify their reply, called with the
    verification on. *)
Definition verified_call (c : call) : Prop :=
  match c with
  | GetPaymentOptions _ bypass
  | SelectPaymentOption _ _ _ bypass
  | SendSignedPayment _ _ _ _ bypass => bypass = false
  | _ => False
  end.

(** What each of the three POST operations posts: the URL, the content
    type and the message whose JSON text is the body. *)
Definition posted (c : call) : option (value * string * value) :=
  match c with
  | SelectPaymentOption paymentUrl chain currency _ =>
      Some (paymentUrl, "application/payment-request",
            VObj [("chain", chain); ("currency", currency)])
  | VerifyPaymentRequest paymentUrl chain currency transactions _ =>
      Some (paymentUrl, "application/payment-verification",
            VObj [("chain", chain); ("currency", currency);
                  ("transactions", transactions)])
  | SendSignedPayment paymentUrl chain currency transactions _ =>
      Some (paymentUrl, "application/payment",
            VObj [("chain", chain); ("currency", currency);
                  ("transactions", transactions)])
  | _ => None
  end.

(** The options of a call are the URL, the method, the headers and the
    body, and nothing else. *)
Definition only_call_options (opts : gmap string value) : Prop :=
  forall name,
    name <> "url" -> name <> "method" -> name <> "headers" -> name <> "body" ->
    opts !! name = None.

End Transport.

(** ** The example wallet: the commands sent to the bitcoin RPC server

    [examples/rpc-wallet-client.js] drives a bitcoind over JSON-RPC with
    the [request] package.  The five commands and [execRpcCommand] are
    modelled; [main], which prompts the user and runs two promises at
    once, and [round], which is floating-point arithmetic, are not. *)
Module Wallet.

(** What a promise is rejected with: an exception object, or, for
    [reject(body.error)], the value the server put under [error]. *)
Inductive thrown :=
| Exception (e : exn)
| Value (v : value).

Inductive settled (A : Type) :=
| Resolved (a : A)
| Rejected (reason : thrown).
Arguments Resolved {A} a.
Arguments Rejected {A} reason.

(** One call of [console.log]: the text, and the reason when it is given
    for second argument. *)
Record Line := {
  text : string;
  shown : option thrown
}.

(** The argument of [request.post]. *)
Record Post := {
  post_url : value;
  post_body : value;
  post_json : bool;
  auth_user : value;
  auth_pass : value;
  auth_sendImmediately : bool
}.

(** The arguments [err] and [body] of the callback of [request.post]; the
    second argument, [response], is not read. *)
Record Answer := {
  err : option exn;
  body : value
}.

(** The variables [rpcUrl], [rpcUser] and [rpcPass] of the script, what has
    been logged and what has been posted. *)
Record Process := {
  rpcUrl : value;
  rpcUser : value;
  rpcPass : value;
  console : list Line;
  posts : list Post
}.

(** The RPC server behind [request.post]: its answer to a post, given the
    posts made before. *)
Class Rpc := {
  request_post : list Post -> Post -> Answer
}.

Definition W (A : Type) : Type := Process -> settled A * Process.

Definition resolve {A} (a : A) : W A := fun p => (Resolved a, p).
Definition reject {A} (reason : thrown) : W A := fun p => (Rejected reason, p).
(** [await] *)
Definition await {A B} (m : W A) (f : A -> W B) : W B :=
  fun p =>
    match m p with
    | (Resolved a, p') => f a p'
    | (Rejected reason, p') => (Rejected reason, p')
    end.
(** [try { await m } catch (err) { handler }] *)
Definition try_await {A} (m : W A) (handler : thrown -> W A) : W A :=
  fun p =>
    match m p with
    | (Resolved a, p') => (Resolved a, p')
    | (Rejected reason, p') => handler reason p'
    end.
Definition console_log (text : string) (shown : option thrown) : W unit :=
  fun p =>
    (Resolved tt,
     {| rpcUrl := rpcUrl p; rpcUser := rpcUser p; rpcPass := rpcPass p;
        console := console p ++ [{| text := text; shown := shown |}];
        posts := posts p |}).

Declare Scope wallet_scope.
Delimit Scope wallet_scope with wallet.
Notation "x <- m ;; k" := (await m (fun x => k))
  (at level 90, m at level 80, k at level 200, right associativity) : wallet_scope.
Notation "m ;;; k" := (await m (fun _ => k))
  (at level 90, k at level 200, right associativity) : wallet_scope.

(** [v.name] where [v] has been found truthy: the read cannot throw. *)
Definition member (v : value) (name : string) : value :=
  match v with
  | VObj fields => default VUndefined (assoc name fields)
  | _ => VUndefined
  end.

Section Commands.
Context `{Rpc}.
Local Open Scope wallet_scope.

(** [execRpcCommand] *)
Definition execRpcCommand (command : value) : W value :=
  fun p =>
    let post := {| post_url := rpcUrl p; post_body := command; post_json := true;
                   auth_user := rpcUser p; auth_pass := rpcPass p;
                   auth_sendImmediately := false |} in
    let p' := {| rpcUrl := rpcUrl p; rpcUser := rpcUser p; rpcPass := rpcPass p;
                 console := console p; posts := posts p ++ [post] |} in
    let answer := request_post (posts p) post in
    match err answer with
    | Some e => (Rejected (Exception e), p')
    | None =>
        if negb (truthy (body answer))
        then (Rejected (Exception (Error "No body returned by bitcoin RPC server")), p')
        else if truthy (member (body answer) "error")
        then (Rejected (Value (member (body answer) "error")), p')
        else if truthy (member (body answer) "result")
        then (Resolved (member (body answer) "result"), p')
        else (Resolved VUndefined, p')
    end.

Definition rpc_command (method : string) (params : list value) : value :=
  VObj [("jsonrpc", VStr "1.0"); ("method", VStr method); ("params", VArr params)].

(** [createRawTransaction] *)
Definition createRawTransaction (outputObject : value) : W value :=
  let createCommand :=
    rpc_command "createrawtransaction" [VArr []; outputObject] in
  rawTransaction <-
    try_await (execRpcCommand createCommand)
      (fun err =>
         console_log "Error creating raw transaction" (Some err) ;;; reject err) ;;
  if negb (truthy rawTransaction)
  then console_log "No raw tx generated" None ;;;
       reject (Exception (Error "No tx generated"))
  else resolve rawTransaction.

(** [fundRawTransaction] *)
Definition fundRawTransaction (rawTransaction requiredFee : value) : W value :=
  let fundCommand :=
    rpc_command "fundrawtransaction"
      [rawTransaction; VObj [("feeRate", requiredFee)]] in
  fundedRawTransaction <-
    try_await (execRpcCommand fundCommand)
      (fun err => console_log "Error funding transaction" (Some err) ;;; reject err) ;;
  if negb (truthy fundedRawTransaction)
  then console_log "No funded tx generated" None ;;;
       reject (Exception (Error "No funded tx generated"))
  else resolve (member fundedRawTransaction "hex").

(** [signRawTransaction] *)
Definition signRawTransaction (fundedRawTransaction : value) : W value :=
  let command := rpc_command "signrawtransaction" [fundedRawTransaction] in
  signedTransaction <-
    try_await (execRpcCommand command)
      (fun err => console_log "Error signing transaction" (Some err) ;;; reject err) ;;
  if negb (truthy signedTransaction)
  then console_log "Bitcoind did not return a signed transaction" None ;;;
       reject (Exception (Error "Missing signed tx"))
  else resolve (member signedTransaction "hex").

(** [decodeRawTransaction] *)
Definition decodeRawTransaction (rawTransaction : value) : W value :=
  let command := rpc_command "decoderawtransaction" [rawTransaction] in
  decodedTransaction <-
    try_await (execRpcCommand command)
      (fun err => console_log "Error decoding transaction" (Some err) ;;; reject err) ;;
  if negb (truthy decodedTransaction)
  then console_log "Bitcoind did not decode the transaction" None ;;;
       reject (Exception (Error "Missing decoded tx"))
  else resolve decodedTransaction.

(** [broadcastP2P]: the reason of a failure is not logged. *)
Definition broadcastP2P (signedTransaction : value) : W value :=
  let command := rpc_command "sendrawtransaction" [signedTransaction] in
  result <-
    try_await (execRpcCommand command)
      (fun err => console_log "Error broadcasting transaction" None ;;; reject err) ;;
  if negb (truthy result)
  then console_log "Bitcoind failed to broadcast transaction" None ;;;
       reject (Exception (Error "Failed to broadcast tx"))
  else resolve result.

(** A call of one of the five commands. *)
Inductive command :=
| Create (outputObject : value)
| Fund (rawTransaction requiredFee : value)
| Sign (fundedRawTransaction : value)
| Decode (rawTransaction : value)
| Broadcast (signedTransaction : value).

Definition run (c : command) : W value :=
  match c with
  | Create outputObject => createRawTransaction outputObject
  | Fund rawTransaction requiredFee => fundRawTransaction rawTransaction requiredFee
  | Sign fundedRawTransaction => signRawTransaction fundedRawTransaction
  | Decode rawTransaction => decodeRawTransaction rawTransaction
  | Broadcast signedTransaction => broadcastP2P signedTransaction
  end.

(** The JSON-RPC message of a command, and the post that carries it from
    the process [p]. *)
Definition message (c : command) : value :=
  match c with
  | Create outputObject => rpc_command "createrawtransaction" [VArr []; outputObject]
  | Fund rawTransaction requiredFee =>
      rpc_command "fundrawtransaction" [rawTransaction; VObj [("feeRate", requiredFee)]]
  | Sign fundedRawTransaction => rpc_command "signrawtransaction" [fundedRawTransaction]
  | Decode rawTransaction => rpc_command "decoderawtransaction" [rawTransaction]
  | Broadcast signedTransaction => rpc_command "sendrawtransaction" [signedTransaction]
  end.

Definition post_of (c : command) (p : Process) : Post :=
  {| post_url := rpcUrl p; post_body := message c; post_json := true;
     auth_user := rpcUser p; auth_pass := rpcPass p; auth_sendImmediately := false |}.

(** The answer of the server to the post of [c] from [p], and what it
    holds under [error] and under [result]. *)
Definition answer_to (c : command) (p : Process) : Answer :=
  request_post (posts p) (post_of c p).
Definition rpc_error (c : command) (p : Process) : value :=
  member (body (answer_to c p)) "error".
Definition rpc_result (c : command) (p : Process) : value :=
  member (body (answer_to c p)) "result".

(** What a command resolves to, given the [result] of the server. *)
Definition yield (c : command) (result : value) : value :=
  match c with
  | Fund _ _ | Sign _ => member result "hex"
  | _ => result
  end.

(** The text logged when the RPC call fails, and whether the reason is
    logged with it; the text logged, and the message of the error thrown,
    when the call gives nothing. *)
Definition failure_text (c : command) : string :=
  match c with
  | Create _ => "Error creating raw transaction"
  | Fund _ _ => "Error funding transaction"
  | Sign _ => "Error signing transaction"
  | Decode _ => "Error decoding transaction"
  | Broadcast _ => "Error broadcasting transaction"
  end.

Definition shows_reason (c : command) : bool :=
  match c with Broadcast _ => false | _ => true end.

Definition nothing_text (c : command) : string :=
  match c with
  | Create _ => "No raw tx generated"
  | Fund _ _ => "No funded tx generated"
  | Sign _ => "Bitcoind did not return a signed transaction"
  | Decode _ => "Bitcoind did not decode the transaction"
  | Broadcast _ => "Bitcoind failed to broadcast transaction"
  end.

Definition nothing_error (c : command) : string :=
  match c with
  | Create _ => "No tx generated"
  | Fund _ _ => "No funded tx generated"
  | Sign _ => "Missing signed tx"
  | Decode _ => "Missing decoded tx"
  | Broadcast _ => "Failed to broadcast tx"
  end.

(** The process after a post, and after a line is logged. *)
Definition logged (p : Process) (line : Line) : Process :=
  {| rpcUrl := rpcUrl p; rpcUser := rpcUser p; rpcPass := rpcPass p;
     console := console p ++ [line]; posts := posts p |}.

Definition posting (p : Process) (post : Post) : Process :=
  {| rpcUrl := rpcUrl p; rpcUser := rpcUser p; rpcPass := rpcPass p;
     console := console p; posts := posts p ++ [post] |}.

(** How [execRpcCommand] settles, by the answer of the server. *)
Definition verdict (answer : Answer) : settled value :=
  match err answer with
  | Some e => Rejected (Exception e)
  | None =>
      if negb (truthy (body answer))
      then Rejected (Exception (Error "No body returned by bitcoin RPC server"))
      else if truthy (member (body answer) "error")
      then Rejected (Value (member (body answer) "error"))
      else if truthy (member (body answer) "result")
      then Resolved (member (body answer) "result")
      else Resolved VUndefined
  end.

End Commands.
End Wallet.

(** ** Further responses and servers, for running the client and the wallet *)
Module Cases.
Import Example.

(** The signed headers of the merchant with one of them replaced. *)
Definition with_header (name : string) (v : value) : value :=
  VObj (assoc_set name v
          (match signed_headers with VObj fields => fields | _ => [] end)).

(** The signature of the merchant with its last digit changed. *)
Definition forged_signature : string :=
  "d79cb8fbf1c5711bed38b9bf473c4379a3b025fd509d954157e59407c3af6c9d" +:+
  "1fa467d3d08c513cb7c04256411305a214eea722e6edd4f3f336e996f00daae8".

(** A server that cannot be reached, and one that answers with the status
    402 and a body in two chunks. *)
Definition unreachable (_ : gmap string value) (_ : option string) : Outcome :=
  SocketError "connect ECONNREFUSED".

Definition expired (_ : gmap string value) (_ : option string) : Outcome :=
  Response 402 (VObj []) ["Invoice "; "expired"].

Definition node_unreachable : Runtime := Node.runtime unreachable.
Definition node_expired : Runtime := Node.runtime expired.

(** The targets of the exchanges, and the calls the client is run on. *)
Definition target : Url :=
  {| protocol := Some "https:"; hostname := Some "merchant.example";
     port := None; path := Some "/pay"; query := None |}.

Definition asking : call := GetPaymentOptions (VStr url) false.
Definition selecting : call :=
  SelectPaymentOption (VStr url) (VStr "BTC") (VStr "BTC") false.
Definition checking : call :=
  VerifyPaymentRequest (VStr url) (VStr "BTC") (VStr "BTC") transactions false.
Definition paying : call :=
  SendSignedPayment (VStr url) (VStr "BTC") (VStr "BTC") transactions false.

Definition payment : value :=
  VObj [("chain", VStr "BTC"); ("currency", VStr "BTC");
        ("transactions", transactions)].

(** A bitcoind that creates and funds transactions, decodes none, refuses
    to broadcast, and is not there for any other method. *)
Definition rpc_answer (result error : value) : Wallet.Answer :=
  Wallet.Build_Answer None
    (VObj [("result", result); ("error", error); ("id", VNull)]).

Definition conflict : value :=
  VObj [("code", VNum (Num (-26) 0)); ("message", VStr "txn-mempool-conflict")].

Definition funded : value :=
  VObj [("hex", VStr "0200000001ab"); ("fee", VNum (Num 225 (-8)));
        ("changepos", VNum (Num 1 0))].

Definition bitcoind : Wallet.Rpc :=
  Wallet.Build_Rpc
    (fun _ post =>
       match Wallet.member (Wallet.post_body post) "method" with
       | VStr method =>
           if String.eqb method "createrawtransaction"
           then rpc_answer (VStr "0200000001") VNull
           else if String.eqb method "fundrawtransaction"
           then rpc_answer funded VNull
           else if String.eqb method "decoderawtransaction"
           then rpc_answer VNull VNull
           else if String.eqb method "sendrawtransaction"
           then rpc_answer VNull conflict
           else Wallet.Build_Answer (Some (NetError "connect ECONNREFUSED")) VUndefined
       | _ => Wallet.Build_Answer (Some (NetError "connect ECONNREFUSED")) VUndefined
       end).

Definition process : Wallet.Process :=
  Wallet.Build_Process (VStr "http://127.0.0.1:8332") (VStr "user") (VStr "pass") [] [].

End Cases.


(** * Properties of the client *)

(** ** Stepping through a computation *)

Section Stepping.
Context `{Runtime}.
Local Open Scope js_scope.

Lemma bind_Return {A B} (m : M A) (f : A -> M B) w a w' :
  m w = (Return a, w') -> bind m f w = f a w'.
Proof. intros Hm. unfold bind. now rewrite Hm. Qed.

Lemma bind_Throw {A B} (m : M A) (f : A -> M B) w e w' :
  m w = (Throw e, w') -> bind m f w = (Throw e, w').
Proof. intros Hm. unfold bind. now rewrite Hm. Qed.

Lemma bind_ret {A B} (a : A) (f : A -> M B) w : bind (ret a) f w = f a w.
Proof. reflexivity. Qed.

Lemma bind_assoc {A B C} (m : M A) (f : A -> M B) (g : B -> M C) w :
  bind (bind m f) g w = bind m (fun a => bind (f a) g) w.
Proof. unfold bind. destruct (m w) as [[a | e] w']; reflexivity. Qed.

Lemma bind_lift {A B} (c : completion A) (f : A -> M B) w :
  bind (lift c) f w = match c with Return a => f a w | Throw e => (Throw e, w) end.
Proof. unfold bind, lift. now destruct c. Qed.

Lemma bind_when {B} (c : bool) e (f : unit -> M B) w :
  bind (when c throw_ e) f w = if c then (Throw e, w) else f tt w.
Proof. now destruct c. Qed.

Lemma bind_catch_lift {A B} (c : completion A) e (f : A -> M B) w :
  bind (try_catch (lift c) (fun _ => throw e)) f w
  = match c with Return a => f a w | Throw _ => (Throw e, w) end.
Proof. unfold bind, try_catch, lift, throw. now destruct c. Qed.

Lemma host_of_url url w :
  try_catch (parsed <- lift (url_parse_value url) ;; ret (hostname parsed))
    (fun _ => ret None) w
  = (Return (match url_parse_value url with
             | Return parsed => hostname parsed
             | Throw _ => None
             end), w).
Proof. unfold try_catch, bind, lift, ret. now destruct (url_parse_value url). Qed.

Lemma eqb_empty_false s : s <> "" -> String.eqb s "" = false.
Proof. intros. now apply String.eqb_neq. Qed.

Lemma truthy_VStr s : truthy (VStr s) = true <-> s <> "".
Proof.
  simpl. destruct (String.eqb_spec s ""); simpl; split; congruence.
Qed.

(** Only an object has a string under one of the names the client reads. *)
Lemma get_prop_VStr_truthy v name s :
  get_prop v name = Return (VStr s) -> truthy v = true.
Proof. destruct v; simpl; intros E; try discriminate; reflexivity. Qed.

Lemma includes_In l s : includes l (VStr s) = true <-> In s l.
Proof.
  simpl. rewrite existsb_exists. split.
  - intros (x & Hx & E). apply String.eqb_eq in E. now subst.
  - intros Hs. exists s. split; [assumption | apply String.eqb_refl].
Qed.

Lemma trusted_lookup_own tk identity key :
  trusted_lookup tk identity = OwnKey key <-> tk !! identity = Some key.
Proof.
  unfold trusted_lookup. destruct (tk !! identity).
  - split; congruence.
  - split; [| discriminate]. destruct (existsb _ _); discriminate.
Qed.

Lemma changed_one_byte_nonempty a b : changed_one_byte a b = true -> b <> "".
Proof. destruct a, b; simpl; intros E; congruence. Qed.

End Stepping.

Ltac norm_in H :=
  repeat (rewrite ?bind_assoc, ?bind_ret, ?bind_lift, ?bind_when, ?bind_catch_lift in H;
          cbn [negb fst snd] in H).

Ltac norm :=
  repeat (rewrite ?bind_assoc, ?bind_ret, ?bind_lift, ?bind_when, ?bind_catch_lift;
          cbn [negb fst snd]).

Section Facts.
Context `{Runtime}.
Local Open Scope js_scope.

(** ** The two halves of [verifyResponse] *)

(** After a good presentation the verdict is that of [checks]. *)
Lemma verifyResponse_presented w url body hdrs text data host hash signature identity
    key cn :
  Presented w url body hdrs text data host hash signature identity key ->
  verifyResponse url body hdrs cn false w
  = checks url text data host hash signature identity key cn w.
Proof.
  intros [(u & parsed & -> & Hu & Hparse & Hhost) Hh [-> Ht] Hj
            (digest & Hd & Hhash) Hty [Hs Hs'] [Hi Hi'] Hk].
  assert (Hhdrs : truthy hdrs = true) by (eapply get_prop_VStr_truthy; eassumption).
  apply trusted_lookup_own in Hk.
  unfold verifyResponse, checks. cbn [truthy ToString].
  rewrite Hhdrs, !eqb_empty_false by assumption. norm.
  rewrite Hj. norm. rewrite Hd. norm. unfold digest_hash. rewrite Hhash. norm.
  rewrite Hs. norm. rewrite Hty. norm. rewrite Hi. norm.
  erewrite bind_Return by apply host_of_url.
  unfold url_parse_value. rewrite Hparse, Hhost. cbn [of_nullable truthy default].
  rewrite !eqb_empty_false by assumption. norm.
  unfold expect_string. norm. cbn [String.eqb Ascii.eqb Bool.eqb negb]. norm.
  erewrite bind_Return by reflexivity. rewrite Hk. norm.
  cbn [truthy]. rewrite !eqb_empty_false by assumption. reflexivity.
Qed.

(** A call that returns has presented itself well and passed [checks]. *)
Lemma verifyResponse_inv url body hdrs cn w v :
  fst (verifyResponse url body hdrs cn false w) = Return v ->
  exists text data host hash signature identity key,
    Presented w url body hdrs text data host hash signature identity key /\
    fst (checks url text data host hash signature identity key cn w) = Return v.
Proof.
  unfold verifyResponse. intros Hv. norm_in Hv.
  destruct (truthy url) eqn:Hurl; [norm_in Hv | discriminate].
  destruct (truthy body) eqn:Hbody; [norm_in Hv | discriminate].
  destruct (truthy hdrs) eqn:Hhdrs; [norm_in Hv | discriminate].
  destruct (JSON_parse (ToString body)) as [data |] eqn:Hjson;
    [norm_in Hv | discriminate].
  destruct (get_prop hdrs "digest") as [digest |] eqn:Hdigest;
    [norm_in Hv | discriminate].
  destruct (digest_hash digest) as [hash |] eqn:Hhash; [norm_in Hv | discriminate].
  destruct (get_prop hdrs "signature") as [signature |] eqn:Hsig;
    [norm_in Hv | discriminate].
  destruct (get_prop hdrs "x-signature-type") as [signatureType |] eqn:Htype;
    [norm_in Hv | discriminate].
  destruct (get_prop hdrs "x-identity") as [identity |] eqn:Hid;
    [norm_in Hv | discriminate].
  erewrite bind_Return in Hv by apply host_of_url. norm_in Hv.
  destruct (truthy (of_nullable _)) eqn:Hhost in Hv; [norm_in Hv | discriminate].
  destruct (truthy signatureType) eqn:Htype'; [norm_in Hv | discriminate].
  destruct signatureType as [| | | | signatureType | |]; try discriminate.
  unfold expect_string in Hv. norm_in Hv.
  destruct (String.eqb_spec signatureType "ecc") as [-> |]; [norm_in Hv | discriminate].
  destruct (truthy signature) eqn:Hsig'; [norm_in Hv | discriminate].
  destruct signature as [| | | | signature | |]; try discriminate. norm_in Hv.
  destruct (truthy identity) eqn:Hid'; [norm_in Hv | discriminate].
  destruct identity as [| | | | identity | |]; try discriminate. norm_in Hv.
  erewrite bind_Return in Hv by reflexivity. norm_in Hv.
  destruct (trusted_lookup _ identity) as [key | |] eqn:Hkey; try discriminate.
  2:{ destruct body; try discriminate. norm_in Hv. destruct (negb _); discriminate. }
  norm_in Hv.
  destruct body as [| | | | text | |]; try discriminate. norm_in Hv.
  destruct hash as [| | | | hash | |]; try discriminate.
  destruct (url_parse_value url) as [parsed |] eqn:Hparse; [| discriminate].
  destruct (hostname parsed) as [host |] eqn:Hname; [| discriminate].
  exists text, data, host, hash, signature, identity, key.
  split; [split |].
  - destruct url as [| | | | u | |]; try discriminate.
    exists u, parsed. repeat split; auto. now apply truthy_VStr.
  - now apply truthy_VStr.
  - split; [reflexivity | now apply truthy_VStr].
  - exact Hjson.
  - unfold digest_hash in Hhash. destruct digest as [| | | | digest | |]; try discriminate.
    exists digest. split; [assumption |]. destruct (nth_error _ _); congruence.
  - assumption.
  - split; [assumption | now apply truthy_VStr].
  - split; [assumption | now apply truthy_VStr].
  - now apply trusted_lookup_own.
  - unfold checks. cbn zeta. norm. exact Hv.
Qed.

(** A body that is present and does not parse is refused before anything
    else is looked at. *)
Lemma invalid_json_refused url body hdrs cn bypass w e :
  truthy url = true -> truthy body = true -> truthy hdrs = true ->
  JSON_parse (ToString body) = Throw e ->
  verifyResponse url body hdrs cn bypass w
  = (Throw (Error "Invalid JSON in response body"), w).
Proof.
  intros Hu Hb Hh Hj. unfold verifyResponse. norm. rewrite Hu, Hb, Hh. norm.
  rewrite Hj. reflexivity.
Qed.

(** What [checks] has found when it returns. *)
Lemma checks_inv url text data host hash signature identity key cn w v :
  fst (checks url text data host hash signature identity key cn w) = Return v ->
  hash = sha256_hex text /\
  In host (domains key) /\
  (cn = true ->
   exists network,
     get_prop data "network" = Return (VStr network) /\ In network (networks key)) /\
  secp256k1_verify (Buffer_from_hex hash) (Buffer_from_hex signature)
    (Buffer_from_hex (publicKey key)) = Return true /\
  v = {| requestUrl := url; responseData := data; keyData := Some key |}.
Proof.
  intros Hv. unfold checks in Hv. cbn zeta in Hv. norm_in Hv.
  destruct (String.eqb_spec hash (sha256_hex text)) as [-> |]; [norm_in Hv | discriminate].
  destruct (includes (domains key) (VStr host)) eqn:Hdom; [norm_in Hv | discriminate].
  apply includes_In in Hdom.
  assert (Hnet : cn = true ->
                 exists network, get_prop data "network" = Return (VStr network) /\
                                 In network (networks key)).
  { intros ->. norm_in Hv.
    destruct (get_prop data "network") as [network |]; [norm_in Hv | discriminate].
    destruct (includes (networks key) network) eqn:Hn; [| discriminate].
    destruct network as [| | | | network | |]; try discriminate.
    exists network. split; [reflexivity | now apply includes_In]. }
  assert (Hrest :
            fst ((valid <- lift (secp256k1_verify (Buffer_from_hex (sha256_hex text))
                                   (Buffer_from_hex signature)
                                   (Buffer_from_hex (publicKey key))) ;;
                  when (negb valid) throw_ (Error "Response signature invalid") ;;;
                  ret {| requestUrl := url; responseData := data;
                         keyData := Some key |}) w) = Return v).
  { destruct cn.
    - norm_in Hv. destruct (get_prop data "network"); [norm_in Hv | discriminate].
      destruct (negb (includes _ _)); [discriminate | exact Hv].
    - exact Hv. }
  norm_in Hrest.
  destruct (secp256k1_verify _ _ _) as [[|] |]; try discriminate.
  repeat split; auto. simpl in Hrest. congruence.
Qed.

(** ** The argument guards and the bypass *)

(** C10: the guards on the three arguments and the parse of the body come
    before the bypass.  Whatever [bypass] is, a falsy [requestUrl], then a
    falsy [rawBody], then a falsy [headers] is refused with its own
    'Parameter ... is required' error, and a body that is present and is
    not JSON with 'Invalid JSON in response body'. *)
Theorem verifyResponse_guards_precede_bypass url body hdrs cn bypass w :
  (truthy url = false ->
   verifyResponse url body hdrs cn bypass w
   = (Throw (Error "Parameter requestUrl is required"), w)) /\
  (truthy url = true -> truthy body = false ->
   verifyResponse url body hdrs cn bypass w
   = (Throw (Error "Parameter rawBody is required"), w)) /\
  (truthy url = true -> truthy body = true -> truthy hdrs = false ->
   verifyResponse url body hdrs cn bypass w
   = (Throw (Error "Parameter headers is required"), w)) /\
  (truthy url = true -> truthy body = true -> truthy hdrs = true ->
   forall e, JSON_parse (ToString body) = Throw e ->
   verifyResponse url body hdrs cn bypass w
   = (Throw (Error "Invalid JSON in response body"), w)).
Proof.
  unfold verifyResponse.
  repeat split; intros; norm;
    repeat match goal with E : _ = _ |- _ => rewrite E; clear E; norm end;
    reflexivity.
Qed.

(** C4: with [bypass = true], present arguments and a body that parses,
    the result is [{requestUrl, responseData}] without [keyData].  Nothing
    is asked of the headers, of the trust store or of the cryptography of
    the runtime: corrupted headers [hdrs'] give the same result. *)
Theorem verifyResponse_bypass url body hdrs cn w data :
  truthy url = true -> truthy body = true -> truthy hdrs = true ->
  JSON_parse (ToString body) = Return data ->
  verifyResponse url body hdrs cn true w
  = (Return {| requestUrl := url; responseData := data; keyData := None |}, w) /\
  forall hdrs', truthy hdrs' = true ->
    verifyResponse url body hdrs' cn true w = verifyResponse url body hdrs cn true w.
Proof.
  intros Hu Hb Hh Hj. unfold verifyResponse. split.
  - norm. rewrite Hu, Hb, Hh. norm. rewrite Hj. reflexivity.
  - intros hdrs' Hh'. norm. rewrite Hu, Hb, Hh, Hh'. norm. rewrite Hj. reflexivity.
Qed.

(** ** The verification proper *)

(** C1: a call with [bypass = false] that returns has passed every check.
    The body is a string that parses to [data]; its SHA-256 in hexadecimal
    is the hash component of the digest header; the host name of the
    request URL is among the domains of [key], the trusted key filed under
    the identity header; with [checkNetwork] the network of [data] is among
    the networks of [key]; the signature header verifies over the hash
    under the public key of [key]; and the value returned is
    [{requestUrl, responseData = data, keyData = key}]. *)
Theorem verifyResponse_sound url body hdrs cn w v :
  fst (verifyResponse url body hdrs cn false w) = Return v ->
  exists text data host hash signature identity key,
    Presented w url body hdrs text data host hash signature identity key /\
    hash = sha256_hex text /\
    In host (domains key) /\
    (cn = true ->
     exists network,
       get_prop data "network" = Return (VStr network) /\ In network (networks key)) /\
    secp256k1_verify (Buffer_from_hex hash) (Buffer_from_hex signature)
      (Buffer_from_hex (publicKey key)) = Return true /\
    v = {| requestUrl := url; responseData := data; keyData := Some key |}.
Proof.
  intros Hv. apply verifyResponse_inv in Hv.
  destruct Hv as (text & data & host & hash & signature & identity & key & Hp & Hv).
  exists text, data, host, hash, signature, identity, key.
  split; [exact Hp | exact (checks_inv _ _ _ _ _ _ _ _ _ _ _ Hv)].
Qed.

(** C7: when the response presents itself well and the digest matches, a
    host name outside the domains of the matched key is refused with the
    untrusted-domain error.  The signature is not asked for: the statement
    holds whatever [secp256k1_verify] answers. *)
Theorem untrusted_domain_rejected
    w url body hdrs text data host hash signature identity key cn :
  Presented w url body hdrs text data host hash signature identity key ->
  hash = sha256_hex text ->
  includes (domains key) (VStr host) = false ->
  verifyResponse url body hdrs cn false w
  = (Throw (Error ("The key on the response (" +:+ identity +:+
                   ") is not trusted for domain " +:+ host)), w).
Proof.
  intros Hp -> Hdom. rewrite (verifyResponse_presented _ _ _ _ _ _ _ _ _ _ _ _ Hp).
  unfold checks. cbn zeta. norm. rewrite String.eqb_refl, Hdom. reflexivity.
Qed.

(** C3, amended: take a body that verifies with its headers, and change
    one byte of it, the headers being kept.  If the SHA-256 of the changed
    body differs from that of the original, the call fails: with the
    digest-mismatch error when the changed body still parses as JSON, and
    with 'Invalid JSON in response body' when it does not. *)
Theorem changed_body_rejected url text text' hdrs cn w v :
  fst (verifyResponse url (VStr text) hdrs cn false w) = Return v ->
  changed_one_byte text text' = true ->
  sha256_hex text' <> sha256_hex text ->
  verifyResponse url (VStr text') hdrs cn false w
  = (Throw (Error
              match JSON_parse text' with
              | Return _ =>
                  "Response body hash does not match digest header. Actual: " +:+
                  sha256_hex text' +:+ " Expected: " +:+ sha256_hex text
              | Throw _ => "Invalid JSON in response body"
              end), w).
Proof.
  intros Hv Hchanged Hdiff. apply changed_one_byte_nonempty in Hchanged.
  apply verifyResponse_inv in Hv.
  destruct Hv as (text0 & data & host & hash & signature & identity & key & Hp & Hv).
  apply checks_inv in Hv. destruct Hv as (-> & _).
  destruct Hp as [Hurl Hhost [Hbody _] _ Hdigest Htype Hsig Hid Hkey].
  injection Hbody as <-.
  destruct (JSON_parse text') as [data' |] eqn:Hjson.
  - assert (Hp' : Presented w url (VStr text') hdrs text' data' host (sha256_hex text)
                    signature identity key) by (split; auto).
    rewrite (verifyResponse_presented _ _ _ _ _ _ _ _ _ _ _ _ Hp').
    unfold checks. cbn zeta. norm.
    destruct (String.eqb_spec (sha256_hex text) (sha256_hex text')) as [E |];
      [now rewrite E in Hdiff | reflexivity].
  - destruct Hurl as (u & parsed & -> & Hu & _).
    destruct Hdigest as (digest & Hd & _).
    apply invalid_json_refused with (e := e); [| | | exact Hjson].
    + now apply truthy_VStr.
    + now apply truthy_VStr.
    + eapply get_prop_VStr_truthy; eassumption.
Qed.

(** ** The other verdicts *)

(** X1: a response that presents itself well, whose digest matches, whose
    host and network are trusted and whose signature verifies is accepted,
    with the matched key for [keyData]. *)
Lemma verifyResponse_accepts
    w url body hdrs text data host hash signature identity key cn :
  Presented w url body hdrs text data host hash signature identity key ->
  hash = sha256_hex text ->
  In host (domains key) ->
  (cn = true ->
   exists network,
     get_prop data "network" = Return (VStr network) /\ In network (networks key)) ->
  secp256k1_verify (Buffer_from_hex hash) (Buffer_from_hex signature)
    (Buffer_from_hex (publicKey key)) = Return true ->
  verifyResponse url body hdrs cn false w
  = (Return {| requestUrl := url; responseData := data; keyData := Some key |}, w).
Proof.
  intros Hp -> Hdom Hnet Hsig.
  rewrite (verifyResponse_presented _ _ _ _ _ _ _ _ _ _ _ _ Hp).
  unfold checks. cbn zeta. norm.
  apply includes_In in Hdom. rewrite String.eqb_refl, Hdom. norm.
  destruct cn.
  - destruct (Hnet eq_refl) as (network & Hn & Hin). apply includes_In in Hin.
    norm. rewrite Hn. norm. rewrite Hin, Hsig. reflexivity.
  - norm. rewrite Hsig. reflexivity.
Qed.


(** The digest header is read, and split, before any header is checked:
    when it is missing the call ends in the [TypeError] of that read,
    whatever the other headers are. *)
Lemma missing_digest_throws url body hdrs cn w data :
  truthy url = true -> truthy body = true -> truthy hdrs = true ->
  JSON_parse (ToString body) = Return data ->
  get_prop hdrs "digest" = Return VUndefined ->
  verifyResponse url body hdrs cn false w
  = (Throw (TypeError "Cannot read property 'split' of undefined"), w).
Proof.
  intros Hu Hb Hh Hj Hd. unfold verifyResponse. norm. rewrite Hu, Hb, Hh. norm.
  rewrite Hj. norm. rewrite Hd. reflexivity.
Qed.

(** X7: the three other headers are checked, in the order type, signature,
    identity, and the lack of one is reported by its name. *)
Lemma missing_headers_named url u parsed host body hdrs cn w data digest :
  url = VStr u -> u <> "" -> url_parse u = Return parsed ->
  hostname parsed = Some host -> host <> "" ->
  truthy body = true -> JSON_parse (ToString body) = Return data ->
  get_prop hdrs "digest" = Return (VStr digest) ->
  (get_prop hdrs "x-signature-type" = Return VUndefined ->
   forall signature identity,
     get_prop hdrs "signature" = Return signature ->
     get_prop hdrs "x-identity" = Return identity ->
     verifyResponse url body hdrs cn false w
     = (Throw (Error "Response missing x-signature-type header"), w)) /\
  (get_prop hdrs "x-signature-type" = Return (VStr "ecc") ->
   get_prop hdrs "signature" = Return VUndefined ->
   forall identity,
     get_prop hdrs "x-identity" = Return identity ->
     verifyResponse url body hdrs cn false w
     = (Throw (Error "Response missing signature header"), w)) /\
  (get_prop hdrs "x-signature-type" = Return (VStr "ecc") ->
   forall signature,
     get_prop hdrs "signature" = Return (VStr signature) -> signature <> "" ->
     get_prop hdrs "x-identity" = Return VUndefined ->
     verifyResponse url body hdrs cn false w
     = (Throw (Error "Response missing x-identity header"), w)).
Proof.
  intros -> Hu Hparse Hhost Hh Hb Hj Hd.
  assert (Hhdrs : truthy hdrs = true) by (eapply get_prop_VStr_truthy; eassumption).
  split; [| split].
  - intros Hty signature identity Hs Hi. unfold verifyResponse. cbn [truthy].
    rewrite Hhdrs, Hb, !eqb_empty_false by assumption. norm.
    rewrite Hj. norm. rewrite Hd. norm. cbn [digest_hash]. norm.
    rewrite Hs. norm. rewrite Hty. norm. rewrite Hi. norm.
    erewrite bind_Return by apply host_of_url.
    unfold url_parse_value. rewrite Hparse, Hhost. cbn [of_nullable truthy].
    rewrite !eqb_empty_false by assumption. norm. reflexivity.
  - intros Hty Hs identity Hi. unfold verifyResponse. cbn [truthy].
    rewrite Hhdrs, Hb, !eqb_empty_false by assumption. norm.
    rewrite Hj. norm. rewrite Hd. norm. cbn [digest_hash]. norm.
    rewrite Hs. norm. rewrite Hty. norm. rewrite Hi. norm.
    erewrite bind_Return by apply host_of_url.
    unfold url_parse_value. rewrite Hparse, Hhost. cbn [of_nullable truthy].
    rewrite !eqb_empty_false by assumption. norm.
    unfold expect_string. norm. reflexivity.
  - intros Hty signature Hs Hs' Hi. unfold verifyResponse. cbn [truthy].
    rewrite Hhdrs, Hb, !eqb_empty_false by assumption. norm.
    rewrite Hj. norm. rewrite Hd. norm. cbn [digest_hash]. norm.
    rewrite Hs. norm. rewrite Hty. norm. rewrite Hi. norm.
    erewrite bind_Return by apply host_of_url.
    unfold url_parse_value. rewrite Hparse, Hhost. cbn [of_nullable truthy].
    rewrite !eqb_empty_false by assumption. norm.
    unfold expect_string. norm. cbn [String.eqb Ascii.eqb Bool.eqb negb]. norm.
    cbn [truthy]. rewrite !eqb_empty_false by assumption. norm. reflexivity.
Qed.

(** ** What an operation does to the world *)

Lemma quiet_ret {A} (a : A) : quiet (ret a).
Proof. now intros w. Qed.

Lemma quiet_throw {A} e : quiet (@throw A e).
Proof. now intros w. Qed.

Lemma quiet_lift {A} (c : completion A) : quiet (lift c).
Proof. now intros w. Qed.

Lemma quiet_this_trustedKeys : quiet this_trustedKeys.
Proof. now intros w. Qed.

Lemma quiet_bind {A B} (m : M A) (f : A -> M B) :
  quiet m -> (forall a, quiet (f a)) -> quiet (bind m f).
Proof.
  intros Hm Hf w. unfold bind. specialize (Hm w).
  destruct (m w) as [[a | e] w']; simpl in Hm; subst; [apply Hf | reflexivity].
Qed.

Lemma quiet_try_catch {A} (m : M A) (handler : exn -> M A) :
  quiet m -> (forall e, quiet (handler e)) -> quiet (try_catch m handler).
Proof.
  intros Hm Hh w. unfold try_catch. specialize (Hm w).
  destruct (m w) as [[a | e] w']; simpl in Hm; subst; [reflexivity | apply Hh].
Qed.

Lemma quiet_keeps_self {A} (m : M A) : quiet m -> keeps_self m.
Proof. intros Hm w. now rewrite Hm. Qed.

Lemma keeps_self_bind {A B} (m : M A) (f : A -> M B) :
  keeps_self m -> (forall a, keeps_self (f a)) -> keeps_self (bind m f).
Proof.
  intros Hm Hf w. unfold bind. specialize (Hm w).
  destruct (m w) as [[a | e] w']; simpl in Hm; [| assumption].
  now rewrite Hf.
Qed.

End Facts.

Ltac quiet :=
  repeat first
    [ apply quiet_ret | apply quiet_throw | apply quiet_lift
    | apply quiet_this_trustedKeys
    | apply quiet_try_catch; [| intros ?]
    | apply quiet_bind; [| intros ?]
    | progress unfold expect_string
    | match goal with
      | |- quiet (if ?c then _ else _) => destruct c
      | |- quiet (match ?x with _ => _ end) => destruct x
      end ].

Section Frames.
Context `{Runtime}.
Local Open Scope js_scope.

Lemma verifyResponse_quiet url body hdrs cn bypass :
  quiet (verifyResponse url body hdrs cn bypass).
Proof. unfold verifyResponse. quiet. Qed.

(** [request] opens exactly one exchange, with the options it is given. *)
Lemma request_wire requestOptions w :
  exists written,
    snd (request requestOptions w)
    = {| self := self w;
         wire := wire w ++ [{| sent_options := requestOptions;
                               sent_body := written |}] |}.
Proof.
  unfold request.
  destruct (truthy _); [destruct (default _ _) |];
    try (eexists; reflexivity);
    match goal with
    | |- context [https_request ?o ?b] =>
        exists b; destruct (https_request o b) as [| status ? ?];
        [| destruct (status =? 200)]; reflexivity
    end.
Qed.

Lemma request_keeps_self requestOptions : keeps_self (request requestOptions).
Proof. intros w. destruct (request_wire requestOptions w) as [b ->]. reflexivity. Qed.

Lemma asyncRequest_keeps_self options : keeps_self (_asyncRequest options).
Proof.
  unfold _asyncRequest.
  apply keeps_self_bind; [now intros w |]. intros base.
  apply keeps_self_bind; [apply quiet_keeps_self, quiet_lift |]. intros parsed.
  apply request_keeps_self.
Qed.



(** Every method leaves the client object, and so its trust store, as it
    found it. *)
Lemma invoke_keeps_self c : keeps_self (invoke c).
Proof.
  destruct c; simpl.
  - unfold getPaymentOptions.
    apply keeps_self_bind; [apply quiet_keeps_self, quiet_lift |]. intros parsed.
    apply keeps_self_bind.
    { apply quiet_keeps_self. quiet. }
    intros target. apply keeps_self_bind; [apply asyncRequest_keeps_self |].
    intros reply. apply quiet_keeps_self, verifyResponse_quiet.
  - unfold selectPaymentOption.
    apply keeps_self_bind; [apply asyncRequest_keeps_self |].
    intros reply. apply quiet_keeps_self, verifyResponse_quiet.
  - unfold verifyPaymentRequest.
    apply keeps_self_bind; [apply asyncRequest_keeps_self |].
    intros reply. apply quiet_keeps_self. quiet.
  - unfold sendSignedPayment.
    apply keeps_self_bind; [apply asyncRequest_keeps_self |].
    intros reply. apply quiet_keeps_self, verifyResponse_quiet.
  - apply quiet_keeps_self, verifyResponse_quiet.
Qed.

(** What an exchange gives does not depend on the world it is opened in,
    and what [_asyncRequest] gives depends on the client through its
    options only. *)
Lemma request_fst requestOptions w w' :
  fst (request requestOptions w) = fst (request requestOptions w').
Proof.
  unfold request.
  destruct (truthy _); [destruct (default _ _) |]; try reflexivity;
    match goal with
    | |- context [https_request ?o ?b] =>
        destruct (https_request o b) as [| status ? ?];
        [| destruct (status =? 200)]; reflexivity
    end.
Qed.

Lemma asyncRequest_store (opts : gmap string value) store w :
  fst (_asyncRequest opts (with_store store w)) = fst (_asyncRequest opts w).
Proof.
  unfold _asyncRequest.
  rewrite (bind_Return this_options _ (with_store store w) _ _ eq_refl),
    (bind_Return this_options _ w _ _ eq_refl).
  cbn [with_store self options]. rewrite !bind_lift.
  destruct (url_parse_value _); [apply request_fst | reflexivity].
Qed.

Lemma trusted_lookup_only_entry store identity :
  trusted_lookup (only_entry (Some identity) store) identity
  = trusted_lookup store identity.
Proof.
  unfold trusted_lookup, only_entry.
  destruct (store !! identity) as [key |] eqn:E.
  - now rewrite lookup_singleton_eq.
  - now rewrite lookup_empty.
Qed.

(** The verdict depends on the trust store through one lookup: that of the
    identity the response claims. *)
Lemma verifyResponse_store url body hdrs cn bypass w store :
  (forall identity, claimed_identity hdrs = Some identity ->
     trusted_lookup store identity = trusted_lookup (trustedKeys (self w)) identity) ->
  fst (verifyResponse url body hdrs cn bypass (with_store store w))
  = fst (verifyResponse url body hdrs cn bypass w).
Proof.
  intros Hsame. unfold verifyResponse. norm.
  destruct (truthy url); [norm | reflexivity].
  destruct (truthy body); [norm | reflexivity].
  destruct (truthy hdrs); [norm | reflexivity].
  destruct (JSON_parse (ToString body)) as [data |]; [norm | reflexivity].
  destruct bypass; [reflexivity | norm].
  unfold claimed_identity in Hsame.
  destruct (get_prop hdrs "digest") as [digest |]; [norm | reflexivity].
  destruct (digest_hash digest) as [hash |]; [norm | reflexivity].
  destruct (get_prop hdrs "signature") as [signature |]; [norm | reflexivity].
  destruct (get_prop hdrs "x-signature-type") as [signatureType |]; [norm | reflexivity].
  destruct (get_prop hdrs "x-identity") as [identity |]; [norm | reflexivity].
  rewrite (bind_Return _ _ _ _ _ (host_of_url url (with_store store w))),
    (bind_Return _ _ _ _ _ (host_of_url url w)). norm.
  destruct (truthy (of_nullable _)); [norm | reflexivity].
  destruct (truthy signatureType); [norm | reflexivity].
  unfold expect_string.
  destruct signatureType; try reflexivity. norm.
  destruct (String.eqb _ "ecc"); [norm | reflexivity].
  destruct (truthy signature); [norm | reflexivity].
  destruct signature; try reflexivity. norm.
  destruct (truthy identity); [norm | reflexivity].
  destruct identity as [| | | | identity | |]; try reflexivity. norm.
  rewrite (bind_Return this_trustedKeys _ (with_store store w) _ _ eq_refl),
    (bind_Return this_trustedKeys _ w _ _ eq_refl). cbn [with_store self trustedKeys].
  rewrite (Hsame identity eq_refl). norm.
  destruct (trusted_lookup _ identity) as [key | |]; norm; try reflexivity.
  - destruct body; try reflexivity. norm.
    destruct (negb _); [reflexivity | norm].
    destruct (includes (domains key) _); [norm | reflexivity].
    destruct cn; norm.
    + destruct (get_prop data "network"); [norm | reflexivity].
      destruct (includes _ _); [norm | reflexivity].
      destruct (secp256k1_verify _ _ _) as [[|] |]; reflexivity.
    + destruct (secp256k1_verify _ _ _) as [[|] |]; reflexivity.
  - destruct body; try reflexivity. norm. destruct (negb _); reflexivity.
Qed.

End Frames.

(** ** The four operations *)

Section Operations.
Context `{Runtime}.
Local Open Scope js_scope.

(** C9: the trust store given to the constructor is never changed.  After
    any session of calls of the five methods, whatever they return or
    throw, the client object is the one the session started with, so the
    store of a client just constructed is still the store it was given.
    The store is only read, and through one lookup: the verdict of
    [verifyResponse] is the same when every entry but that of the claimed
    identity is taken out of the store. *)
Theorem trust_store_never_mutated requestOptions store calls
    url body hdrs cn bypass w :
  let w0 := {| self := new_PaymentProtocol requestOptions store; wire := [] |} in
  self (session calls w) = self w /\
  trustedKeys (self (session calls w0)) = store /\
  fst (verifyResponse url body hdrs cn bypass
         (with_store (only_entry (claimed_identity hdrs) (trustedKeys (self w))) w))
  = fst (verifyResponse url body hdrs cn bypass w).
Proof.
  intros w0.
  assert (Hself : forall calls w1, self (session calls w1) = self w1).
  { clear. intros calls. induction calls as [| c calls IH]; intros w1; simpl.
    - reflexivity.
    - rewrite IH. apply invoke_keeps_self. }
  split; [apply Hself |]. split; [now rewrite Hself |].
  apply verifyResponse_store. intros identity ->. apply trusted_lookup_only_entry.
Qed.

(** C5: [verifyPaymentRequest] is [_asyncRequest] followed by [JSON.parse]
    of the body of the reply, and by nothing else: when the exchange fails
    it throws what the exchange throws, and otherwise it gives back the
    parsed body as it is, or throws what [JSON.parse] throws.  The headers
    of the reply do not enter the result, and neither do the trust store
    and the [unsafeBypassValidation] argument: with another store and the
    argument negated the result is the same.  [sendSignedPayment] is
    [_asyncRequest] followed by [verifyResponse] on the body and the
    headers of the reply, with [checkNetwork = false] and its own
    [unsafeBypassValidation]. *)
Theorem verification_unverified_payment_verified
    paymentUrl chain currency transactions bypass w :
  verifyPaymentRequest paymentUrl chain currency transactions bypass w
  = (match _asyncRequest
             (verification_request paymentUrl chain currency transactions) w with
     | (Return reply, w') =>
         (match JSON_parse (ToString (rawBody reply)) with
          | Return data =>
              Return {| requestUrl := VUndefined; responseData := data;
                        keyData := None |}
          | Throw e => Throw e
          end, w')
     | (Throw e, w') => (Throw e, w')
     end) /\
  (forall store,
     fst (verifyPaymentRequest paymentUrl chain currency transactions (negb bypass)
            (with_store store w))
     = fst (verifyPaymentRequest paymentUrl chain currency transactions bypass w)) /\
  sendSignedPayment paymentUrl chain currency transactions bypass w
  = match _asyncRequest (payment_request paymentUrl chain currency transactions) w with
    | (Return reply, w') =>
        verifyResponse paymentUrl (rawBody reply) (headers reply) false bypass w'
    | (Throw e, w') => (Throw e, w')
    end.
Proof.
  assert (Hshape : forall flag w0,
             verifyPaymentRequest paymentUrl chain currency transactions flag w0
             = (match _asyncRequest
                        (verification_request paymentUrl chain currency transactions)
                        w0 with
                | (Return reply, w') =>
                    (match JSON_parse (ToString (rawBody reply)) with
                     | Return data =>
                         Return {| requestUrl := VUndefined; responseData := data;
                                   keyData := None |}
                     | Throw e => Throw e
                     end, w')
                | (Throw e, w') => (Throw e, w')
                end)).
  { intros flag w0. unfold verifyPaymentRequest.
    fold (verification_request paymentUrl chain currency transactions). unfold bind at 1.
    destruct (_asyncRequest _ w0) as [[reply | e] w']; [| reflexivity].
    norm. destruct (JSON_parse _); reflexivity. }
  split; [apply Hshape |]. split.
  - intros store. rewrite !Hshape.
    pose proof (asyncRequest_store
                  (verification_request paymentUrl chain currency transactions)
                  store w) as Hsame.
    destruct (_asyncRequest _ (with_store store w)) as [[reply | e] w1];
      destruct (_asyncRequest _ w) as [[reply' | e'] w2];
      cbn [fst] in Hsame; try discriminate; injection Hsame as ->;
      [destruct (JSON_parse _) |]; reflexivity.
  - unfold sendSignedPayment.
    fold (payment_request paymentUrl chain currency transactions). unfold bind at 1.
    destruct (_asyncRequest _ w) as [[reply | e] w']; reflexivity.
Qed.



End Operations.

(** ** The other ways [verifyResponse] ends *)

Ltac crank :=
  repeat (norm;
          cbn [truthy of_nullable default from_option digest_hash ToString];
          unfold id, expect_string;
          first
            [ erewrite bind_Return by apply host_of_url
            | rewrite (bind_Return this_trustedKeys _ _ _ _ eq_refl)
            | match goal with
              | E : ?l = _ |- context [?l] => rewrite E
              end
            | match goal with
              | N : ?s <> "" |- context [String.eqb ?s ""] =>
                  rewrite (eqb_empty_false s N)
              end
            | progress cbn [url_parse_value] ]).

Section Verdicts.
Context `{Runtime}.
Local Open Scope js_scope.

(** X6: a signature type other than [ecc] is refused by its name, before
    the signature and the identity are looked at. *)
Theorem unknown_signature_type url body hdrs data host digest signature identity kind cn w :
  Received url body hdrs data host digest ->
  get_prop hdrs "signature" = Return signature ->
  get_prop hdrs "x-identity" = Return identity ->
  get_prop hdrs "x-signature-type" = Return (VStr kind) ->
  kind <> "" -> kind <> "ecc" ->
  verifyResponse url body hdrs cn false w
  = (Throw (Error ("Unknown signature type " +:+ kind)), w).
Proof.
  intros [(u & parsed & -> & Hu & Hparse & Hhost) Hh Hb Hj Hd] Hs Hi Hk Hk' Hecc.
  assert (Hhdrs : truthy hdrs = true) by (eapply get_prop_VStr_truthy; eassumption).
  apply String.eqb_neq in Hecc.
  unfold verifyResponse. crank. reflexivity.
Qed.

(** X8: a header that is present but not a string (an array, a number) is
    refused as invalid, in the order type, signature, identity; the
    message for the identity header names it [identity], not
    [x-identity]. *)
Theorem invalid_header_types url body hdrs data host digest cn w :
  Received url body hdrs data host digest ->
  (forall kind signature identity,
     get_prop hdrs "x-signature-type" = Return kind ->
     get_prop hdrs "signature" = Return signature ->
     get_prop hdrs "x-identity" = Return identity ->
     truthy kind = true -> is_string kind = false ->
     verifyResponse url body hdrs cn false w
     = (Throw (Error "Invalid x-signature-type header"), w)) /\
  (forall signature identity,
     get_prop hdrs "x-signature-type" = Return (VStr "ecc") ->
     get_prop hdrs "signature" = Return signature ->
     get_prop hdrs "x-identity" = Return identity ->
     truthy signature = true -> is_string signature = false ->
     verifyResponse url body hdrs cn false w
     = (Throw (Error "Invalid signature header"), w)) /\
  (forall signature identity,
     get_prop hdrs "x-signature-type" = Return (VStr "ecc") ->
     get_prop hdrs "signature" = Return (VStr signature) -> signature <> "" ->
     get_prop hdrs "x-identity" = Return identity ->
     truthy identity = true -> is_string identity = false ->
     verifyResponse url body hdrs cn false w
     = (Throw (Error "Invalid identity header"), w)).
Proof.
  intros [(u & parsed & -> & Hu & Hparse & Hhost) Hh Hb Hj Hd].
  assert (Hhdrs : truthy hdrs = true) by (eapply get_prop_VStr_truthy; eassumption).
  split; [| split].
  - intros kind signature identity Hk Hs Hi Ht Hn.
    unfold verifyResponse. crank. destruct kind; try discriminate; reflexivity.
  - intros signature identity Hk Hs Hi Ht Hn.
    unfold verifyResponse. crank. cbn [String.eqb Ascii.eqb Bool.eqb]. crank.
    destruct signature; try discriminate; reflexivity.
  - intros signature identity Hk Hs Hs' Hi Ht Hn.
    unfold verifyResponse. crank. cbn [String.eqb Ascii.eqb Bool.eqb]. crank.
    destruct identity; try discriminate; reflexivity.
Qed.

Lemma not_in_prototype identity :
  ~ In identity object_prototype ->
  existsb (String.eqb identity) object_prototype = false.
Proof.
  intros Hn. destruct (existsb _ _) eqn:E; [| reflexivity].
  apply existsb_exists in E. destruct E as (x & Hx & E).
  apply String.eqb_eq in E. now subst.
Qed.

(** X4: an identity that is no key of the trust store, and no member of
    [Object.prototype], is refused as an unknown key that is named in the
    message, before the digest is compared. *)
Theorem unknown_identity_rejected url body hdrs data host digest signature identity cn w :
  Received url body hdrs data host digest ->
  get_prop hdrs "x-signature-type" = Return (VStr "ecc") ->
  get_prop hdrs "signature" = Return (VStr signature) -> signature <> "" ->
  get_prop hdrs "x-identity" = Return (VStr identity) -> identity <> "" ->
  trustedKeys (self w) !! identity = None ->
  ~ In identity object_prototype ->
  verifyResponse url body hdrs cn false w
  = (Throw (Error ("Response signed by unknown key (" +:+ identity +:+
                   "), unable to validate")), w).
Proof.
  intros [(u & parsed & -> & Hu & Hparse & Hhost) Hh Hb Hj Hd] Hk Hs Hs' Hi Hi' Hnone Hproto.
  assert (Hhdrs : truthy hdrs = true) by (eapply get_prop_VStr_truthy; eassumption).
  apply not_in_prototype in Hproto.
  unfold verifyResponse. crank. cbn [String.eqb Ascii.eqb Bool.eqb]. crank.
  unfold trusted_lookup. rewrite Hnone, Hproto. reflexivity.
Qed.

(** X5: an identity that names a member of [Object.prototype], such as
    [toString] or [constructor], passes the unknown-key check, since
    [trustedKeys[identity]] is then truthy; when the digest matches, the
    read of [keyData.domains.includes] throws a [TypeError] instead of
    the unknown-key error. *)
Theorem inherited_identity_throws url text hdrs data host digest signature identity cn w :
  Received url (VStr text) hdrs data host digest ->
  nth_error (split_eq digest) 1 = Some (sha256_hex text) ->
  get_prop hdrs "x-signature-type" = Return (VStr "ecc") ->
  get_prop hdrs "signature" = Return (VStr signature) -> signature <> "" ->
  get_prop hdrs "x-identity" = Return (VStr identity) ->
  trustedKeys (self w) !! identity = None ->
  In identity object_prototype ->
  verifyResponse url (VStr text) hdrs cn false w
  = (Throw (TypeError "Cannot read property 'includes' of undefined"), w).
Proof.
  intros [(u & parsed & -> & Hu & Hparse & Hhost) Hh Hb Hj Hd] Hhash Hk Hs Hs' Hi Hnone
         Hproto.
  assert (Hhdrs : truthy hdrs = true) by (eapply get_prop_VStr_truthy; eassumption).
  assert (Hi' : identity <> "").
  { intros ->. simpl in Hproto. intuition discriminate. }
  assert (Hp : existsb (String.eqb identity) object_prototype = true).
  { apply existsb_exists. exists identity. split; [assumption | apply String.eqb_refl]. }
  cbn [truthy] in Hb. cbn [ToString] in Hj.
  unfold verifyResponse. crank. cbn [String.eqb Ascii.eqb Bool.eqb]. crank.
  unfold trusted_lookup. rewrite Hnone, Hp. crank. rewrite String.eqb_refl. reflexivity.
Qed.

(** X10: a request URL in which [url.parse] finds no host name, or which
    it does not take, is refused as 'Invalid requestUrl', whatever the
    three other headers are. *)
Theorem invalid_requestUrl url body hdrs data digest cn w :
  truthy url = true -> truthy body = true ->
  JSON_parse (ToString body) = Return data ->
  get_prop hdrs "digest" = Return (VStr digest) ->
  match url_parse_value url with
  | Return parsed => hostname parsed = None \/ hostname parsed = Some ""
  | Throw _ => True
  end ->
  verifyResponse url body hdrs cn false w = (Throw (Error "Invalid requestUrl"), w).
Proof.
  intros Hu Hb Hj Hd Hhost.
  assert (Hhdrs : truthy hdrs = true) by (eapply get_prop_VStr_truthy; eassumption).
  assert (Hget : forall name, exists v, get_prop hdrs name = Return v).
  { intros name. destruct hdrs; try discriminate; simpl; eauto. }
  destruct (Hget "signature") as [signature Hs].
  destruct (Hget "x-signature-type") as [kind Hk].
  destruct (Hget "x-identity") as [identity Hi].
  unfold verifyResponse. norm. rewrite Hu, Hb, Hhdrs. norm. rewrite Hj. norm.
  rewrite Hd. norm. cbn [digest_hash]. norm. rewrite Hs. norm. rewrite Hk. norm.
  rewrite Hi. norm. erewrite bind_Return by apply host_of_url. norm.
  destruct (url_parse_value url) as [parsed |]; [| reflexivity].
  destruct Hhost as [-> | ->]; reflexivity.
Qed.

(** X11: a body whose SHA-256 is not the second [=]-component of the
    digest header is refused with both hashes in the message; a digest
    header without [=] makes the expected hash read [undefined].  This
    comes before the domain, the network and the signature. *)
Theorem digest_mismatch_rejected
    url text hdrs data host digest component signature identity key cn w :
  Received url (VStr text) hdrs data host digest ->
  nth_error (split_eq digest) 1 = component ->
  component <> Some (sha256_hex text) ->
  get_prop hdrs "x-signature-type" = Return (VStr "ecc") ->
  get_prop hdrs "signature" = Return (VStr signature) -> signature <> "" ->
  get_prop hdrs "x-identity" = Return (VStr identity) -> identity <> "" ->
  trustedKeys (self w) !! identity = Some key ->
  verifyResponse url (VStr text) hdrs cn false w
  = (Throw (Error ("Response body hash does not match digest header. Actual: " +:+
                   sha256_hex text +:+ " Expected: " +:+ default "undefined" component)),
     w).
Proof.
  intros [(u & parsed & -> & Hu & Hparse & Hhost) Hh Hb Hj Hd] Hc Hne Hk Hs Hs' Hi Hi' Hkey.
  assert (Hhdrs : truthy hdrs = true) by (eapply get_prop_VStr_truthy; eassumption).
  apply trusted_lookup_own in Hkey.
  cbn [truthy] in Hb. cbn [ToString] in Hj.
  unfold verifyResponse. crank. cbn [String.eqb Ascii.eqb Bool.eqb]. crank.
  destruct component as [hash |]; crank.
  - destruct (String.eqb_spec hash (sha256_hex text)) as [-> |]; [congruence |].
    reflexivity.
  - reflexivity.
Qed.


(** X13: the body [null] is valid JSON; with [checkNetwork] on, and the
    digest and the domain right, the read of [responseData.network] throws
    a [TypeError], before the signature is verified. *)
Theorem null_body_network_read_throws
    w url body hdrs text host hash signature identity key :
  Presented w url body hdrs text VNull host hash signature identity key ->
  hash = sha256_hex text ->
  In host (domains key) ->
  verifyResponse url body hdrs true false w
  = (Throw (TypeError "Cannot read property 'network' of null"), w).
Proof.
  intros Hp -> Hdom.
  rewrite (verifyResponse_presented _ _ _ _ _ _ _ _ _ _ _ _ Hp).
  unfold checks. cbn zeta. norm.
  apply includes_In in Hdom. rewrite String.eqb_refl, Hdom. norm. reflexivity.
Qed.

(** X9: when the digest header is anything but a string, missing
    included, the call ends in the [TypeError] of [headers.digest.split],
    whatever the other headers and the request URL are. *)
Theorem unreadable_digest_throws url body hdrs data digest cn w :
  truthy url = true -> truthy body = true ->
  JSON_parse (ToString body) = Return data ->
  truthy hdrs = true ->
  get_prop hdrs "digest" = Return digest ->
  is_string digest = false ->
  exists message,
    verifyResponse url body hdrs cn false w = (Throw (TypeError message), w).
Proof.
  intros Hu Hb Hj Hh Hd Hn. unfold verifyResponse. norm. rewrite Hu, Hb, Hh. norm.
  rewrite Hj. norm. rewrite Hd. norm.
  destruct digest; try discriminate; cbn [digest_hash]; eexists; reflexivity.
Qed.

Lemma assoc_set_same k v fields : assoc k (assoc_set k v fields) = Some v.
Proof.
  induction fields as [| [k' v'] fields IH]; simpl.
  - now rewrite String.eqb_refl.
  - destruct (String.eqb_spec k k') as [-> | Hne]; simpl.
    + now rewrite String.eqb_refl.
    + apply String.eqb_neq in Hne. now rewrite Hne.
Qed.

Lemma assoc_set_other k k' v fields :
  k' <> k -> assoc k' (assoc_set k v fields) = assoc k' fields.
Proof.
  intros Hne. induction fields as [| [k0 v0] fields IH]; simpl.
  - apply String.eqb_neq in Hne. now rewrite Hne.
  - destruct (String.eqb_spec k k0) as [-> | Hk]; simpl.
    + apply String.eqb_neq in Hne. now rewrite Hne.
    + now rewrite IH.
Qed.

(** X12: only the second [=]-component of the digest header is read: the
    algorithm it names, and whatever follows a second [=], do not enter
    the verdict. *)
Theorem digest_label_ignored
    w url body fields text data host hash signature identity key cn digest' :
  Presented w url body (VObj fields) text data host hash signature identity key ->
  nth_error (split_eq digest') 1 = Some hash ->
  verifyResponse url body (VObj (assoc_set "digest" (VStr digest') fields)) cn false w
  = verifyResponse url body (VObj fields) cn false w.
Proof.
  intros Hp Hd.
  assert (Hp' : Presented w url body (VObj (assoc_set "digest" (VStr digest') fields))
                  text data host hash signature identity key).
  { destruct Hp as [Hurl Hhost Hbody Hjson _ Htype Hsig Hid Hkey].
    split; auto; cbn [get_prop] in *;
      rewrite ?assoc_set_same, ?assoc_set_other by discriminate; auto.
    exists digest'. split; [reflexivity | assumption]. }
  rewrite (verifyResponse_presented _ _ _ _ _ _ _ _ _ _ _ _ Hp).
  now rewrite (verifyResponse_presented _ _ _ _ _ _ _ _ _ _ _ _ Hp').
Qed.

End Verdicts.

(** ** The exchange behind an operation *)

Section Exchange.
Context `{Runtime}.
Local Open Scope js_scope.

Lemma request_with_body (sent : gmap string value) payload w :
  sent !! "body" = Some (VStr payload) -> payload <> "" ->
  request sent w
  = (settlement (https_request sent (Some payload)),
     {| self := self w;
        wire := wire w ++ [{| sent_options := sent; sent_body := Some payload |}] |}).
Proof.
  intros Hb Hp. unfold request. rewrite Hb. cbn [default from_option truthy]. unfold id.
  cbn [truthy]. rewrite (eqb_empty_false _ Hp). cbn [negb].
  unfold settlement. destruct (https_request _ _) as [| status ? ?];
    [| destruct (status =? 200)]; reflexivity.
Qed.

Lemma request_without_body (sent : gmap string value) w :
  sent !! "body" = None ->
  request sent w
  = (settlement (https_request sent None),
     {| self := self w;
        wire := wire w ++ [{| sent_options := sent; sent_body := None |}] |}).
Proof.
  intros Hb. unfold request. rewrite Hb. cbn [default from_option truthy].
  unfold settlement. destruct (https_request _ _) as [| status ? ?];
    [| destruct (status =? 200)]; reflexivity.
Qed.

Lemma wire_options_lookup (opts base : gmap string value) target k :
  k <> "url" -> k <> "hostname" -> k <> "path" -> k <> "port" ->
  wire_options opts base target !! k
  = match opts !! k with Some v => Some v | None => base !! k end.
Proof.
  intros. unfold wire_options.
  rewrite lookup_delete_ne, !lookup_insert_ne by congruence.
  rewrite lookup_union. destruct (opts !! k), (base !! k); reflexivity.
Qed.




Lemma asyncRequest_shape (opts : gmap string value) w :
  (exists e, _asyncRequest opts w = (Throw e, w)) \/
  (exists target,
     _asyncRequest opts w = request (wire_options opts (options (self w)) target) w).
Proof.
  unfold _asyncRequest. erewrite bind_Return by reflexivity. rewrite bind_lift.
  destruct (url_parse_value _) as [target | e]; [right | left]; eauto.
Qed.

Lemma request_Return (sent : gmap string value) w reply :
  fst (request sent w) = Return reply ->
  exists written responseHeaders chunks,
    https_request sent written = Response 200 responseHeaders chunks /\
    reply = {| rawBody := VStr (String.concat "" chunks); headers := responseHeaders |} /\
    snd (request sent w)
    = {| self := self w;
         wire := wire w ++ [{| sent_options := sent; sent_body := written |}] |}.
Proof.
  unfold request.
  destruct (truthy _); [destruct (default _ _); try discriminate |];
    match goal with
    | |- context [https_request ?o ?b] =>
        destruct (https_request o b) as [| status hs chunks] eqn:E; try discriminate;
        destruct (Z.eqb_spec status 200) as [-> |]; try discriminate;
        cbn [fst snd]; intros [= <-]; exists b, hs, chunks; auto
    end.
Qed.

End Exchange.

Ltac call_options :=
  intros ? ? ? ? ?;
  unfold options_request, selection_request, verification_request, payment_request;
  repeat (rewrite lookup_insert_ne by congruence);
  rewrite lookup_singleton_ne by congruence; reflexivity.

Section Exchanges.
Context `{Runtime}.
Local Open Scope js_scope.

Lemma invoke_shape c w :
  (exists e, invoke c w = (Throw e, w)) \/
  (exists url body hdrs cn bypass, c = VerifyResponse url body hdrs cn bypass) \/
  (exists opts target k,
     continuation c k /\ (forall reply, quiet (k reply)) /\
     invoke c w = bind (request (wire_options opts (options (self w)) target)) k w /\
     (opts !! "body" = None \/ exists payload, opts !! "body" = Some (VStr payload)) /\
     only_call_options opts).
Proof.
  destruct c as [paymentUrl bypass | paymentUrl chain currency bypass
                 | paymentUrl chain currency transactions bypass
                 | paymentUrl chain currency transactions bypass
                 | url body hdrs cn bypass]; cbn [invoke].
  - unfold getPaymentOptions. rewrite bind_lift.
    destruct (url_parse_value paymentUrl) as [parsed | e]; [| left; eauto].
    assert (Hgo : forall target,
               (exists e, (reply <- _asyncRequest (options_request target) ;;
                           verifyResponse target (rawBody reply) (headers reply) false
                             bypass) w = (Throw e, w)) \/
               (exists opts target' k,
                  continuation (GetPaymentOptions paymentUrl bypass) k /\
                  (forall reply, quiet (k reply)) /\
                  (reply <- _asyncRequest (options_request target) ;;
                   verifyResponse target (rawBody reply) (headers reply) false bypass) w
                  = bind (request (wire_options opts (options (self w)) target')) k w /\
                  (opts !! "body" = None \/
                   exists payload, opts !! "body" = Some (VStr payload)) /\
                  only_call_options opts)).
    { intros target.
      destruct (asyncRequest_shape (options_request target) w) as [[e He] | [t Ht]].
      - left. exists e. now rewrite (bind_Throw _ _ _ _ _ He).
      - right. exists (options_request target), t,
          (fun reply => verifyResponse target (rawBody reply) (headers reply) false bypass).
        split; [now exists target |]. split; [intros; apply verifyResponse_quiet |].
        split; [unfold bind; now rewrite Ht |]. split; [left; reflexivity | call_options]. }
    destruct (negb (is_web_protocol (protocol parsed))).
    + cbn zeta. norm.
      destruct (get_prop _ "r") as [r | e]; [| left; eauto].
      destruct (truthy r); cbn [negb]; [| left; eauto].
      rewrite bind_ret. destruct (Hgo r) as [Hl | Hr]; [left | right; right]; assumption.
    + rewrite bind_ret.
      destruct (Hgo paymentUrl) as [Hl | Hr]; [left | right; right]; assumption.
  - unfold selectPaymentOption. fold (selection_request paymentUrl chain currency).
    destruct (asyncRequest_shape (selection_request paymentUrl chain currency) w)
      as [[e He] | [t Ht]].
    + left. exists e. now rewrite (bind_Throw _ _ _ _ _ He).
    + right; right. exists (selection_request paymentUrl chain currency), t,
        (fun reply => verifyResponse paymentUrl (rawBody reply) (headers reply) true bypass).
      split; [reflexivity |]. split; [intros; apply verifyResponse_quiet |].
      split; [unfold bind; now rewrite Ht |].
      split; [right; eexists; reflexivity | call_options].
  - unfold verifyPaymentRequest.
    fold (verification_request paymentUrl chain currency transactions).
    destruct (asyncRequest_shape
                (verification_request paymentUrl chain currency transactions) w)
      as [[e He] | [t Ht]].
    + left. exists e. now rewrite (bind_Throw _ _ _ _ _ He).
    + right; right.
      exists (verification_request paymentUrl chain currency transactions), t,
        (fun reply =>
           responseData <- lift (JSON_parse (ToString (rawBody reply))) ;;
           ret {| requestUrl := VUndefined; responseData := responseData;
                  keyData := None |}).
      split; [reflexivity |]. split; [intros; quiet |].
      split; [unfold bind; now rewrite Ht |].
      split; [right; eexists; reflexivity | call_options].
  - unfold sendSignedPayment.
    fold (payment_request paymentUrl chain currency transactions).
    destruct (asyncRequest_shape (payment_request paymentUrl chain currency transactions) w)
      as [[e He] | [t Ht]].
    + left. exists e. now rewrite (bind_Throw _ _ _ _ _ He).
    + right; right. exists (payment_request paymentUrl chain currency transactions), t,
        (fun reply => verifyResponse paymentUrl (rawBody reply) (headers reply) false bypass).
      split; [reflexivity |]. split; [intros; apply verifyResponse_quiet |].
      split; [unfold bind; now rewrite Ht |].
      split; [right; eexists; reflexivity | call_options].
  - right; left. eauto 6.
Qed.

Lemma app_one_inv {A} (l : list A) x : l <> l ++ [x].
Proof.
  intros E. apply (f_equal (@length A)) in E. rewrite length_app in E. simpl in E. lia.
Qed.


(** X15: when the exchange an operation has opened ends in a socket error
    the operation throws that error, and when it ends in a status other
    than 200 the operation throws an [Error] whose message is the body of
    the reply: the reply is neither parsed nor verified.  The client is
    one whose constructor options set no body. *)
Theorem operations_fail_fast c w sent written :
  options (self w) !! "body" = None ->
  wire (snd (invoke c w))
  = wire w ++ [{| sent_options := sent; sent_body := written |}] ->
  match https_request sent written with
  | SocketError msg => fst (invoke c w) = Throw (NetError msg)
  | Response statusCode _ chunks =>
      statusCode <> 200 -> fst (invoke c w) = Throw (Error (String.concat "" chunks))
  end.
Proof.
  intros Hbase Hwire.
  destruct (invoke_shape c w) as [[e He] | [(url & body & hdrs & cn & b & ->) | Hx]].
  - rewrite He in Hwire. now apply app_one_inv in Hwire.
  - cbn [invoke] in Hwire. rewrite verifyResponse_quiet in Hwire.
    now apply app_one_inv in Hwire.
  - destruct Hx as (opts & target & k & _ & Hk & Heq & Hbody & _).
    rewrite Heq in Hwire |- *.
    set (sent' := wire_options opts (options (self w)) target) in *.
    assert (Hreq : exists written',
               request sent' w
               = (settlement (https_request sent' written'),
                  {| self := self w;
                     wire := wire w ++ [{| sent_options := sent';
                                           sent_body := written' |}] |})).
    { destruct Hbody as [Hnone | [payload Hsome]].
      - exists None. apply request_without_body. subst sent'.
        rewrite wire_options_lookup by discriminate. now rewrite Hnone.
      - assert (Hs : sent' !! "body" = Some (VStr payload)).
        { subst sent'. rewrite wire_options_lookup by discriminate. now rewrite Hsome. }
        destruct (String.eqb_spec payload "") as [-> | Hp].
        + exists None. unfold request. rewrite Hs. cbn.
          unfold settlement. destruct (https_request _ _) as [| status ? ?];
            [| destruct (status =? 200)]; reflexivity.
        + exists (Some payload). now apply request_with_body. }
    destruct Hreq as [written' Hreq].
    unfold bind in Hwire |- *. rewrite Hreq in Hwire |- *.
    assert (Hsame : sent' = sent /\ written' = written).
    { destruct (settlement _) as [reply | e]; [rewrite Hk in Hwire |];
        cbn [snd wire] in Hwire; apply app_inv_head in Hwire;
        injection Hwire as -> ->; auto. }
    destruct Hsame as [-> ->].
    unfold settlement.
    destruct (https_request sent written) as [msg | status hs chunks]; [reflexivity |].
    intros Hne. destruct (Z.eqb_spec status 200); [contradiction | reflexivity].
Qed.

(** X16: an operation returns a value only after an exchange that ended
    with the status 200; [verifyResponse], which opens none, apart. *)
Theorem operations_return_after_200 c w v :
  fst (invoke c w) = Return v ->
  (exists url body hdrs cn bypass, c = VerifyResponse url body hdrs cn bypass) \/
  (exists sent written responseHeaders chunks,
     wire (snd (invoke c w))
     = wire w ++ [{| sent_options := sent; sent_body := written |}] /\
     https_request sent written = Response 200 responseHeaders chunks).
Proof.
  intros Hv.
  destruct (invoke_shape c w) as [[e He] | [Hvr | Hx]].
  - rewrite He in Hv. discriminate.
  - now left.
  - right. destruct Hx as (opts & target & k & _ & Hk & Heq & _ & _).
    rewrite Heq in Hv |- *. unfold bind in Hv |- *.
    destruct (request _ w) as [[reply | e] w1] eqn:Hreq; [| discriminate].
    destruct (request_Return (wire_options opts (options (self w)) target) w reply) as (written & hs & chunks & Hhttp & _ & Hw).
    { now rewrite Hreq. }
    rewrite Hreq in Hw. cbn [snd] in Hw. subst w1.
    exists (wire_options opts (options (self w)) target), written, hs, chunks.
    split; [now rewrite Hk | assumption].
Qed.

(** X17: with the verification on, what [getPaymentOptions],
    [selectPaymentOption] and [sendSignedPayment] return is the parsed
    body of a reply with status 200, whose SHA-256 is signed, by the
    signature header, with the key that the trust store of the client
    files under the identity header; that key is the [keyData] returned
    and is trusted for some host; and for [selectPaymentOption] the
    network of the body is one of the networks of the key. *)
Theorem operations_return_authenticated c w v :
  verified_call c ->
  fst (invoke c w) = Return v ->
  exists sent written responseHeaders chunks identity key signature host,
    wire (snd (invoke c w))
    = wire w ++ [{| sent_options := sent; sent_body := written |}] /\
    https_request sent written = Response 200 responseHeaders chunks /\
    JSON_parse (String.concat "" chunks) = Return (responseData v) /\
    get_prop responseHeaders "x-identity" = Return (VStr identity) /\
    trustedKeys (self w) !! identity = Some key /\
    keyData v = Some key /\
    In host (domains key) /\
    get_prop responseHeaders "signature" = Return (VStr signature) /\
    secp256k1_verify (Buffer_from_hex (sha256_hex (String.concat "" chunks)))
      (Buffer_from_hex signature) (Buffer_from_hex (publicKey key)) = Return true /\
    match c with
    | SelectPaymentOption _ _ _ _ =>
        exists network,
          get_prop (responseData v) "network" = Return (VStr network) /\
          In network (networks key)
    | _ => True
    end.
Proof.
  intros Hc Hv.
  destruct (invoke_shape c w) as [[e He] | [(url & body & hdrs & cn & b & ->) | Hx]].
  - rewrite He in Hv. discriminate.
  - destruct Hc.
  - destruct Hx as (opts & target & k & Hcont & Hk & Heq & _ & _).
    rewrite Heq in Hv |- *. unfold bind in Hv |- *.
    destruct (request _ w) as [[reply | e] w1] eqn:Hreq; [| discriminate].
    destruct (request_Return (wire_options opts (options (self w)) target) w reply) as (written & hs & chunks & Hhttp & -> & Hw).
    { now rewrite Hreq. }
    rewrite Hreq in Hw. cbn [snd] in Hw. subst w1.
    assert (Hverified : exists url cn,
               k = (fun reply => verifyResponse url (rawBody reply) (headers reply) cn
                                   false) /\
               match c with SelectPaymentOption _ _ _ _ => cn = true | _ => True end).
    { destruct c; cbn [continuation verified_call] in Hcont, Hc; try contradiction;
        subst; [destruct Hcont as [t ->] | |]; eauto. }
    destruct Hverified as (url & cn & -> & Hcn). cbn beta in Hv.
    cbn [rawBody headers] in Hv.
    apply verifyResponse_inv in Hv.
    destruct Hv as (text & data & host & hash & signature & identity & key & Hp & Hv).
    apply checks_inv in Hv. destruct Hv as (-> & Hdom & Hnet & Hsig & ->).
    destruct Hp as [_ _ [Hbody _] Hjson _ _ [Hs _] [Hi _] Hkey].
    injection Hbody as <-.
    exists (wire_options opts (options (self w)) target), written, hs, chunks,
      identity, key, signature, host.
    split; [now rewrite verifyResponse_quiet |].
    repeat (split; [assumption || reflexivity |]).
    destruct c; try exact I. apply Hnet, Hcn.
Qed.

Lemma exchange_wire {A} (sent : gmap string value) (k : Reply -> M A) w written :
  (forall reply, quiet (k reply)) ->
  snd (request sent w)
  = {| self := self w;
       wire := wire w ++ [{| sent_options := sent; sent_body := written |}] |} ->
  wire (snd (bind (request sent) k w))
  = wire w ++ [{| sent_options := sent; sent_body := written |}].
Proof.
  intros Hk Hw. unfold bind.
  destruct (request sent w) as [[reply | e] w1]; cbn [snd] in Hw; subst w1;
    [now rewrite Hk | reflexivity].
Qed.



(** X20: the options given to the constructor reach [https.request] with
    every exchange: but for the URL, the method, the headers and the body,
    which the call sets, and the host name, path and port, which come from
    the URL, an option on the wire is the one of the constructor; [agent]
    is [false] unless the constructor was given one. *)
Theorem constructor_options_on_the_wire requestOptions store c sent written name :
  let w := {| self := new_PaymentProtocol requestOptions store; wire := [] |} in
  wire (snd (invoke c w)) = [{| sent_options := sent; sent_body := written |}] ->
  name <> "url" -> name <> "hostname" -> name <> "path" -> name <> "port" ->
  name <> "method" -> name <> "headers" -> name <> "body" ->
  sent !! name
  = match requestOptions !! name with
    | Some v => Some v
    | None => if String.eqb name "agent" then Some (VBool false) else None
    end.
Proof.
  intros w Hwire Hu Hh Hp Hport Hm Hhd Hb.
  destruct (invoke_shape c w) as [[e He] | [(? & ? & ? & ? & ? & ->) | Hx]].
  - rewrite He in Hwire. discriminate.
  - cbn [invoke] in Hwire. rewrite verifyResponse_quiet in Hwire. discriminate.
  - destruct Hx as (opts & target & k & _ & Hk & Heq & _ & Hopts).
    rewrite Heq in Hwire.
    destruct (request_wire (wire_options opts (options (self w)) target) w)
      as [written' Hw].
    rewrite (exchange_wire _ k w written' Hk) in Hwire.
    2:{ destruct (request _ w) as [r w1]. cbn [snd] in Hw |- *. subst w1. reflexivity. }
    cbn [wire app w] in Hwire. injection Hwire as <- <-.
    rewrite wire_options_lookup by assumption.
    rewrite Hopts by assumption. cbn [w self options new_PaymentProtocol].
    rewrite lookup_union. destruct (requestOptions !! name) as [v |] eqn:E.
    + destruct ({[ "agent" := VBool false ]} !! name); reflexivity.
    + destruct (String.eqb_spec name "agent") as [-> | Hne].
      * reflexivity.
      * rewrite lookup_singleton_ne by congruence. reflexivity.
Qed.

End Exchanges.

(** ** The commands of the example wallet *)

Section Commands.
Import Wallet.
Context `{Rpc}.
Local Open Scope wallet_scope.

Lemma member_get_prop v name :
  truthy v = true -> get_prop v name = Return (member v name).
Proof. destruct v; simpl; try discriminate; reflexivity. Qed.

(** Every command is one RPC call, its failure logged and passed on, its
    empty result turned into an error of the command. *)
Lemma run_unfold c p :
  run c p
  = (result <-
       try_await (execRpcCommand (message c))
         (fun err =>
            console_log (failure_text c) (if shows_reason c then Some err else None) ;;;
            reject err) ;;
     if negb (truthy result)
     then console_log (nothing_text c) None ;;;
          reject (Exception (Error (nothing_error c)))
     else resolve (yield c result)) p.
Proof. destruct c; reflexivity. Qed.


Lemma execRpcCommand_verdict cmd p :
  let post := {| post_url := rpcUrl p; post_body := cmd; post_json := true;
                 auth_user := rpcUser p; auth_pass := rpcPass p;
                 auth_sendImmediately := false |} in
  execRpcCommand cmd p = (verdict (request_post (posts p) post), posting p post).
Proof.
  intros post. unfold execRpcCommand, verdict. fold post.
  destruct (err _); [reflexivity |].
  destruct (truthy (body _)); cbn [negb]; [| reflexivity].
  destruct (truthy (member _ "error")); [reflexivity |].
  destruct (truthy (member _ "result")); reflexivity.
Qed.

Lemma run_verdict c p :
  run c p
  = match verdict (answer_to c p) with
    | Rejected reason =>
        (Rejected reason,
         logged (posting p (post_of c p))
           {| text := failure_text c;
              shown := if shows_reason c then Some reason else None |})
    | Resolved result =>
        if truthy result
        then (Resolved (yield c result), posting p (post_of c p))
        else (Rejected (Exception (Error (nothing_error c))),
              logged (posting p (post_of c p))
                {| text := nothing_text c; shown := None |})
    end.
Proof.
  rewrite run_unfold. unfold await, try_await.
  rewrite execRpcCommand_verdict. fold (post_of c p). fold (answer_to c p).
  destruct (verdict _) as [result | reason]; [| reflexivity].
  destruct (truthy result); reflexivity.
Qed.

Lemma verdict_Resolved answer v :
  verdict answer = Resolved v ->
  err answer = None /\ truthy (body answer) = true /\
  truthy (member (body answer) "error") = false /\
  v = (if truthy (member (body answer) "result")
       then member (body answer) "result" else VUndefined).
Proof.
  unfold verdict. destruct (err answer); [discriminate |].
  destruct (truthy (body answer)); cbn [negb]; [| discriminate].
  destruct (truthy (member _ "error")); [discriminate |].
  destruct (truthy (member _ "result")); intros [= <-]; auto.
Qed.

(** X21: [execRpcCommand] posts the command once, to [rpcUrl] with the
    credentials of the script, and settles on the answer in this order: the
    error of the transport; no body; the [error] of the body, which is
    what the promise is rejected with, even beside a [result]; the
    [result].  It resolves with [undefined] when the body has neither, or
    a falsy [result]. *)
Theorem execRpcCommand_settles cmd p :
  let post := {| post_url := rpcUrl p; post_body := cmd; post_json := true;
                 auth_user := rpcUser p; auth_pass := rpcPass p;
                 auth_sendImmediately := false |} in
  let answer := request_post (posts p) post in
  snd (execRpcCommand cmd p) = posting p post /\
  (forall v,
     fst (execRpcCommand cmd p) = Resolved v <->
     err answer = None /\ truthy (body answer) = true /\
     truthy (member (body answer) "error") = false /\
     v = (if truthy (member (body answer) "result")
          then member (body answer) "result" else VUndefined)) /\
  (forall reason,
     fst (execRpcCommand cmd p) = Rejected reason <->
     match err answer with
     | Some e => reason = Exception e
     | None =>
         if truthy (body answer)
         then truthy (member (body answer) "error") = true /\
              reason = Value (member (body answer) "error")
         else reason = Exception (Error "No body returned by bitcoin RPC server")
     end).
Proof.
  intros post answer. rewrite execRpcCommand_verdict. fold post. fold answer.
  cbn [fst snd]. split; [reflexivity |]. unfold verdict.
  destruct (err answer) as [e |].
  - split.
    + intros v. split; [discriminate | intros [? _]; discriminate].
    + intros reason. split; [intros [= <-] | intros ->]; reflexivity.
  - destruct (truthy (body answer)); cbn [negb].
    + destruct (truthy (member (body answer) "error")) eqn:Herror.
      * split.
        -- intros v. split; [discriminate | intros (_ & _ & ? & _); discriminate].
        -- intros reason. split; [intros [= <-]; auto | intros [_ ->]; reflexivity].
      * destruct (truthy (member (body answer) "result")); split.
        -- intros v. split; [intros [= <-]; auto | intros (_ & _ & _ & ->); reflexivity].
        -- intros reason. split; [discriminate | intros [? _]; discriminate].
        -- intros v. split; [intros [= <-]; auto | intros (_ & _ & _ & ->); reflexivity].
        -- intros reason. split; [discriminate | intros [? _]; discriminate].
    + split.
      * intros v. split; [discriminate | intros (_ & ? & _); discriminate].
      * intros reason. split; [intros [= <-] | intros ->]; reflexivity.
Qed.

(** X22: a command resolves only when the server answered, without an
    [error], with a truthy [result]; it resolves with the result, or with
    the [hex] of the result for [fundRawTransaction] and
    [signRawTransaction], which may be [undefined]; and nothing is
    logged. *)
Theorem command_resolves c p v :
  fst (run c p) = Resolved v ->
  err (answer_to c p) = None /\
  truthy (rpc_error c p) = false /\
  truthy (rpc_result c p) = true /\
  v = yield c (rpc_result c p) /\
  snd (run c p) = posting p (post_of c p).
Proof.
  rewrite run_verdict. unfold rpc_error, rpc_result.
  destruct (verdict (answer_to c p)) as [result | reason] eqn:E; [| discriminate].
  apply verdict_Resolved in E. destruct E as (He & _ & Herr & Hr).
  destruct (truthy result) eqn:Ht; [| discriminate].
  cbn [fst snd]. intros [= <-].
  destruct (truthy (member _ "result")) eqn:Hres; subst result; [auto | discriminate].
Qed.

(** X23: a command rejects in two ways.  Either [execRpcCommand] has
    rejected: the reason is passed on as it is, after one line is logged,
    with the reason but for [broadcastP2P].  Or the server answered
    without an [error] and without a truthy [result]: the command logs
    one line and rejects with an error of its own. *)
Theorem command_rejects c p reason :
  fst (run c p) = Rejected reason ->
  (fst (execRpcCommand (message c) p) = Rejected reason /\
   snd (run c p)
   = logged (posting p (post_of c p))
       {| text := failure_text c;
          shown := if shows_reason c then Some reason else None |}) \/
  (err (answer_to c p) = None /\ truthy (body (answer_to c p)) = true /\
   truthy (rpc_error c p) = false /\
   truthy (rpc_result c p) = false /\
   reason = Exception (Error (nothing_error c)) /\
   snd (run c p)
   = logged (posting p (post_of c p)) {| text := nothing_text c; shown := None |}).
Proof.
  rewrite run_verdict, execRpcCommand_verdict. fold (post_of c p). fold (answer_to c p).
  unfold rpc_error, rpc_result.
  destruct (verdict (answer_to c p)) as [result | r] eqn:E.
  - apply verdict_Resolved in E. destruct E as (He & Hb & Herr & Hr).
    destruct (truthy result) eqn:Ht; [discriminate |].
    cbn [fst snd]. intros [= <-]. right.
    destruct (truthy (member _ "result")) eqn:Hres; subst result; [congruence |].
    auto 7.
  - cbn [fst snd]. intros [= <-]. left. auto.
Qed.

(** X24: every command posts once, the JSON-RPC message of its method to
    [rpcUrl] with [rpcUser] and [rpcPass]; it leaves the three variables
    as they are; and it logs one line when it rejects and none when it
    resolves. *)
Theorem command_posts_once c p :
  posts (snd (run c p)) = posts p ++ [post_of c p] /\
  (console (snd (run c p)) = console p <-> exists v, fst (run c p) = Resolved v) /\
  (console (snd (run c p)) = console p \/
   exists line, console (snd (run c p)) = console p ++ [line]) /\
  rpcUrl (snd (run c p)) = rpcUrl p /\
  rpcUser (snd (run c p)) = rpcUser p /\
  rpcPass (snd (run c p)) = rpcPass p.
Proof.
  assert (Hne : forall l (x : Line), l ++ [x] <> l).
  { intros l x E'. apply (f_equal (@length Line)) in E'.
    rewrite length_app in E'. simpl in E'. lia. }
  rewrite run_verdict.
  destruct (verdict (answer_to c p)) as [result | reason];
    [destruct (truthy result) |]; cbn;
    (split; [reflexivity |]); (split; [| split; [eauto | auto]]).
  - split; eauto.
  - split; [intros E'; now apply Hne in E' | intros [v Hv]; discriminate].
  - split; [intros E'; now apply Hne in E' | intros [v Hv]; discriminate].
Qed.

End Commands.

(** * The client at work on the reference runtime *)

Section Runs.
Import Example.

Local Existing Instance node.

Lemma merchant_response_verifies :
  verifyResponse (VStr url) (VStr body) signed_headers true false world
  = (Return verified, world).
Proof. vm_compute. reflexivity. Qed.

Lemma verifyResponse_sound_witness :
  fst (verifyResponse (VStr url) (VStr body) signed_headers true false world)
  = Return verified /\
  exists text data host hash signature identity key,
    Presented world (VStr url) (VStr body) signed_headers text data host hash
      signature identity key /\
    hash = sha256_hex text /\
    In host (domains key) /\
    (true = true ->
     exists network,
       get_prop data "network" = Return (VStr network) /\ In network (networks key)) /\
    secp256k1_verify (Buffer_from_hex hash) (Buffer_from_hex signature)
      (Buffer_from_hex (publicKey key)) = Return true /\
    verified = {| requestUrl := VStr url; responseData := data; keyData := Some key |}.
Proof.
  assert (Hv : fst (verifyResponse (VStr url) (VStr body) signed_headers true false
                      world) = Return verified) by (vm_compute; reflexivity).
  split; [exact Hv |].
  exact (verifyResponse_sound (VStr url) (VStr body) signed_headers true world verified Hv).
Defined.

(** C2: a response without a digest header is not refused with an error
    that names the header: the read of [headers.digest.split] throws the
    language's [TypeError].  The three other headers are checked, and the
    lack of one of them is reported by name. *)
Theorem missing_digest_is_a_TypeError :
  fst (verifyResponse (VStr url) (VStr body) (headers_without "digest")
         false false world)
  = Throw (TypeError "Cannot read property 'split' of undefined") /\
  fst (verifyResponse (VStr url) (VStr body) (headers_without "signature")
         false false world)
  = Throw (Error "Response missing signature header") /\
  fst (verifyResponse (VStr url) (VStr body)
         (headers_without "x-signature-type") false false world)
  = Throw (Error "Response missing x-signature-type header") /\
  fst (verifyResponse (VStr url) (VStr body) (headers_without "x-identity")
         false false world)
  = Throw (Error "Response missing x-identity header").
Proof. vm_compute. auto. Qed.

(** C3, refuted as stated: the last byte of the merchant's body is changed
    and the headers are kept; the call fails, but with 'Invalid JSON in
    response body', not with the digest-mismatch error. *)
Lemma one_byte_change_breaks_json :
  fst (verifyResponse (VStr url) (VStr body) signed_headers true false world)
  = Return verified /\
  changed_one_byte body broken_body = true /\
  fst (verifyResponse (VStr url) (VStr broken_body) signed_headers true false world)
  = Throw (Error "Invalid JSON in response body").
Proof. vm_compute. auto. Qed.

Lemma changed_body_rejected_witness :
  fst (verifyResponse (VStr url) (VStr body) signed_headers true false world)
  = Return verified /\
  changed_one_byte body other_body = true /\
  sha256_hex other_body <> sha256_hex body /\
  verifyResponse (VStr url) (VStr other_body) signed_headers true false world
  = (Throw (Error
              match JSON_parse other_body with
              | Return _ =>
                  "Response body hash does not match digest header. Actual: " +:+
                  sha256_hex other_body +:+ " Expected: " +:+
                  sha256_hex body
              | Throw _ => "Invalid JSON in response body"
              end), world).
Proof.
  assert (Hv : fst (verifyResponse (VStr url) (VStr body) signed_headers true false
                      world) = Return verified) by (vm_compute; reflexivity).
  assert (Hc : changed_one_byte body other_body = true) by (vm_compute; reflexivity).
  assert (Hd : sha256_hex other_body
               <> sha256_hex body)
    by (vm_compute; discriminate).
  do 3 (split; [assumption |]).
  exact (changed_body_rejected (VStr url) body other_body signed_headers true world verified
           Hv Hc Hd).
Defined.

Lemma verifyResponse_bypass_witness :
  truthy (VStr url) = true /\ truthy (VStr body) = true /\ truthy (VObj []) = true /\
  JSON_parse (ToString (VStr body))
  = Return (VObj [("network", VStr "main")]) /\
  verifyResponse (VStr url) (VStr body) (VObj []) false true world
  = (Return {| requestUrl := VStr url;
               responseData := VObj [("network", VStr "main")];
               keyData := None |}, world) /\
  forall hdrs', truthy hdrs' = true ->
    verifyResponse (VStr url) (VStr body) hdrs' false true world
    = verifyResponse (VStr url) (VStr body) (VObj []) false true world.
Proof.
  assert (Hj : JSON_parse (ToString (VStr body))
               = Return (VObj [("network", VStr "main")])) by (vm_compute; reflexivity).
  do 3 (split; [reflexivity |]). split; [exact Hj |].
  exact (verifyResponse_bypass (VStr url) (VStr body) (VObj []) false world
           (VObj [("network", VStr "main")]) eq_refl eq_refl eq_refl Hj).
Defined.

Lemma verifyResponse_guards_witness :
  verifyResponse (VStr "") (VStr body) signed_headers false true world
  = (Throw (Error "Parameter requestUrl is required"), world) /\
  verifyResponse (VStr url) VUndefined signed_headers false true world
  = (Throw (Error "Parameter rawBody is required"), world) /\
  verifyResponse (VStr url) (VStr body) VNull false true world
  = (Throw (Error "Parameter headers is required"), world) /\
  verifyResponse (VStr url) (VStr broken_body) signed_headers false true world
  = (Throw (Error "Invalid JSON in response body"), world).
Proof.
  split; [| split; [| split]].
  - exact (proj1 (verifyResponse_guards_precede_bypass
                    (VStr "") (VStr body) signed_headers false true world) eq_refl).
  - exact (proj1 (proj2 (verifyResponse_guards_precede_bypass
                           (VStr url) VUndefined signed_headers false true world))
             eq_refl eq_refl).
  - exact (proj1 (proj2 (proj2 (verifyResponse_guards_precede_bypass
                                  (VStr url) (VStr body) VNull false true world)))
             eq_refl eq_refl eq_refl).
  - refine (proj2 (proj2 (proj2 (verifyResponse_guards_precede_bypass
                                   (VStr url) (VStr broken_body) signed_headers false true
                                   world)))
              eq_refl eq_refl eq_refl (SyntaxError "Unexpected token in JSON") _).
    vm_compute. reflexivity.
Defined.

Lemma verification_unverified_witness :
  fst (verifyPaymentRequest (H := node_unsigned) (VStr url) (VStr "BTC") (VStr "BTC")
         transactions false world)
  = Return {| requestUrl := VUndefined;
              responseData := VObj [("network", VStr "main")];
              keyData := None |} /\
  fst (sendSignedPayment (H := node_unsigned) (VStr url) (VStr "BTC") (VStr "BTC")
         transactions false world)
  = Throw (TypeError "Cannot read property 'split' of undefined").
Proof.
  destruct (verification_unverified_payment_verified (H := node_unsigned)
              (VStr url) (VStr "BTC") (VStr "BTC") transactions false world)
    as (Ev & _ & Es).
  split; [rewrite Ev | rewrite Es]; vm_compute; reflexivity.
Defined.

(** In [bitcoin:?r=] the parameter [r] is present, with the empty string
    for value; the call throws 'Invalid payment protocol url' and opens no
    exchange. *)
Lemma empty_r_is_refused :
  url_parse_value (VStr "bitcoin:?r=")
  = Return {| protocol := Some "bitcoin:"; hostname := Some ""; port := None;
              path := Some "?r="; query := Some "r=" |} /\
  get_prop (querystring_decode (Some "r=")) "r" = Return (VStr "") /\
  getPaymentOptions (VStr "bitcoin:?r=") false world
  = (Throw (Error "Invalid payment protocol url"), world).
Proof. vm_compute. auto. Qed.


Lemma untrusted_domain_rejected_witness :
  Presented world (VStr "https://evil.example/pay") (VStr body) signed_headers body
    (VObj [("network", VStr "main")]) "evil.example" digest signature "id1"
    merchant_key /\
  digest = sha256_hex body /\
  includes (domains merchant_key) (VStr "evil.example") = false /\
  verifyResponse (VStr "https://evil.example/pay") (VStr body) signed_headers false false world
  = (Throw (Error "The key on the response (id1) is not trusted for domain evil.example"),
     world).
Proof.
  assert (Hp : Presented world (VStr "https://evil.example/pay") (VStr body) signed_headers body
                 (VObj [("network", VStr "main")]) "evil.example" digest signature "id1"
                 merchant_key).
  { split.
    - eexists _, _. split; [reflexivity |]. split; [discriminate |].
      split; vm_compute; reflexivity.
    - discriminate.
    - split; [reflexivity | discriminate].
    - vm_compute. reflexivity.
    - eexists. split; vm_compute; reflexivity.
    - reflexivity.
    - split; [reflexivity | discriminate].
    - split; [reflexivity | discriminate].
    - vm_compute. reflexivity. }
  assert (Hd : digest = sha256_hex body) by (vm_compute; reflexivity).
  split; [exact Hp |]. split; [exact Hd |]. split; [reflexivity |].
  exact (untrusted_domain_rejected world _ _ _ _ _ _ _ _ _ _ false Hp Hd eq_refl).
Defined.


(** The same response met through the operations: [selectPaymentOption]
    refuses it for its network, [sendSignedPayment] and [getPaymentOptions]
    return it verified. *)
Lemma operations_on_the_test_network :
  fst (selectPaymentOption (H := node_test) (VStr url) (VStr "BTC") (VStr "BTC") false
         world)
  = Throw (Error
             "The key on the response is not trusted for transactions on the 'test' network")
  /\
  fst (sendSignedPayment (H := node_test) (VStr url) (VStr "BTC") (VStr "BTC")
         transactions false world)
  = Return {| requestUrl := VStr url;
              responseData := VObj [("network", VStr "test")];
              keyData := Some merchant_key |} /\
  fst (getPaymentOptions (H := node_test) (VStr url) false world)
  = Return {| requestUrl := VStr url;
              responseData := VObj [("network", VStr "test")];
              keyData := Some merchant_key |}.
Proof. vm_compute. auto. Qed.

(** C8: with [checkNetwork = true], a response whose body is [null] is not
    refused with the untrusted-network error.  The body is valid JSON, its
    digest matches, the domain is trusted and the signature is valid, so
    that with [checkNetwork = false] the response verifies; the parsed body
    has no [network] that could be a member of the networks of the key, and
    the read of [responseData.network] throws the language's [TypeError].
    A body whose [network] is outside the networks of the key is refused
    by name.  [selectPaymentOption], which verifies with
    [checkNetwork = true], ends in the same [TypeError];
    [sendSignedPayment] and [getPaymentOptions], which verify with
    [checkNetwork = false], return the response verified. *)
Theorem null_body_is_a_TypeError :
  JSON_parse null_body = Return VNull /\
  verifyResponse (VStr url) (VStr null_body) null_headers false false world
  = (Return verified_null, world) /\
  verifyResponse (VStr url) (VStr null_body) null_headers true false world
  = (Throw (TypeError "Cannot read property 'network' of null"), world) /\
  verifyResponse (VStr url) (VStr test_body) test_headers true false world
  = (Throw (Error
              "The key on the response is not trusted for transactions on the 'test' network"),
     world) /\
  fst (selectPaymentOption (H := node_null) (VStr url) (VStr "BTC") (VStr "BTC") false
         world)
  = Throw (TypeError "Cannot read property 'network' of null") /\
  fst (sendSignedPayment (H := node_null) (VStr url) (VStr "BTC") (VStr "BTC")
         transactions false world)
  = Return verified_null /\
  fst (getPaymentOptions (H := node_null) (VStr url) false world)
  = Return verified_null.
Proof.
  split; [vm_compute; reflexivity |]. split; [vm_compute; reflexivity |].
  split; [vm_compute; reflexivity |]. split; [vm_compute; reflexivity |].
  split; [vm_compute; reflexivity |]. split; vm_compute; reflexivity.
Qed.

(** C6: a payment URI in which [r] is present, twice, gets neither the
    protocol error nor a GET: the query decodes [r] to an array, which
    [getPaymentOptions] hands to [_asyncRequest] as the URL, and the call
    ends in the [TypeError] of [url.parse] with no exchange opened.  A URI
    without [r] is refused by name, and one with a single [r] is fetched.
    Nor is the GET issued against exactly the URL given by [r]: of that
    URL only the host name, the path and the port reach [https.request],
    so that an [r] with [http:] for protocol opens the very exchange of the
    same [r] with [https:]. *)
Theorem repeated_r_is_a_TypeError :
  (exists parsed,
     url_parse_value (VStr twice_uri) = Return parsed /\
     is_web_protocol (protocol parsed) = false /\
     get_prop (querystring_decode (query parsed)) "r"
     = Return (VArr [VStr url; VStr url])) /\
  (exists message,
     getPaymentOptions (VStr twice_uri) false world
     = (Throw (TypeError message), world)) /\
  getPaymentOptions (VStr no_r_uri) false world
  = (Throw (Error "Invalid payment protocol url"), world) /\
  fst (getPaymentOptions (VStr ("bitcoin:?r=" +:+ url)) false world) = Return verified /\
  wire (snd (getPaymentOptions (VStr http_uri) false world))
  = wire (snd (getPaymentOptions (VStr ("bitcoin:?r=" +:+ url)) false world)) /\
  length (wire (snd (getPaymentOptions (VStr http_uri) false world))) = 1%nat.
Proof.
  split.
  { eexists. split; [vm_compute; reflexivity |]. split; vm_compute; reflexivity. }
  split; [eexists; vm_compute; reflexivity |]. split; [vm_compute; reflexivity |].
  split; [vm_compute; reflexivity |]. split; vm_compute; reflexivity.
Qed.

End Runs.

(** * More runs: the other verdicts, the exchanges and the wallet *)

Ltac presented :=
  split;
  [ eexists _, _; split; [reflexivity |]; split; [discriminate |];
    split; vm_compute; reflexivity
  | discriminate
  | split; [reflexivity | discriminate]
  | vm_compute; reflexivity
  | eexists; split; vm_compute; reflexivity
  | vm_compute; reflexivity
  | split; [vm_compute; reflexivity | discriminate]
  | split; [vm_compute; reflexivity | discriminate]
  | vm_compute; reflexivity ].

Ltac received :=
  split;
  [ eexists _, _; split; [reflexivity |]; split; [discriminate |];
    split; vm_compute; reflexivity
  | discriminate
  | reflexivity
  | vm_compute; reflexivity
  | vm_compute; reflexivity ].

Section Cases.
Import Example Cases.

Local Existing Instance node.

Lemma verifyResponse_accepts_witness :
  Presented world (VStr url) (VStr test_body) test_headers test_body
    (VObj [("network", VStr "test")]) "merchant.example" test_digest test_signature
    "id1" merchant_key /\
  test_digest = sha256_hex test_body /\
  In "merchant.example" (domains merchant_key) /\
  verifyResponse (VStr url) (VStr test_body) test_headers false false world
  = (Return {| requestUrl := VStr url;
               responseData := VObj [("network", VStr "test")];
               keyData := Some merchant_key |}, world).
Proof.
  assert (Hp : Presented world (VStr url) (VStr test_body) test_headers test_body
                 (VObj [("network", VStr "test")]) "merchant.example" test_digest
                 test_signature "id1" merchant_key) by presented.
  assert (Hd : test_digest = sha256_hex test_body) by (vm_compute; reflexivity).
  assert (Hin : In "merchant.example" (domains merchant_key)) by (left; reflexivity).
  split; [exact Hp |]. split; [exact Hd |]. split; [exact Hin |].
  refine (verifyResponse_accepts world _ _ _ _ _ _ _ _ _ _ false Hp Hd Hin _ _).
  - discriminate.
  - vm_compute. reflexivity.
Defined.



Lemma unknown_identity_rejected_witness :
  let hdrs := with_header "x-identity" (VStr "id2") in
  Received (VStr url) (VStr body) hdrs (VObj [("network", VStr "main")])
    "merchant.example" ("sha-256=" +:+ digest) /\
  trustedKeys (self world) !! "id2" = None /\
  ~ In "id2" object_prototype /\
  verifyResponse (VStr url) (VStr body) hdrs false false world
  = (Throw (Error "Response signed by unknown key (id2), unable to validate"), world).
Proof.
  intros hdrs.
  assert (Hr : Received (VStr url) (VStr body) hdrs (VObj [("network", VStr "main")])
                 "merchant.example" ("sha-256=" +:+ digest)) by received.
  assert (Hn : trustedKeys (self world) !! "id2" = None) by (vm_compute; reflexivity).
  assert (Hproto : ~ In "id2" object_prototype) by (simpl; intuition discriminate).
  split; [exact Hr |]. split; [exact Hn |]. split; [exact Hproto |].
  refine (unknown_identity_rejected _ _ _ _ _ _ signature "id2" false world Hr _ _ _ _ _
            Hn Hproto).
  - reflexivity.
  - reflexivity.
  - discriminate.
  - reflexivity.
  - discriminate.
Defined.

Lemma inherited_identity_throws_witness :
  let hdrs := with_header "x-identity" (VStr "toString") in
  Received (VStr url) (VStr body) hdrs (VObj [("network", VStr "main")])
    "merchant.example" ("sha-256=" +:+ digest) /\
  trustedKeys (self world) !! "toString" = None /\
  In "toString" object_prototype /\
  verifyResponse (VStr url) (VStr body) hdrs false false world
  = (Throw (TypeError "Cannot read property 'includes' of undefined"), world).
Proof.
  intros hdrs.
  assert (Hr : Received (VStr url) (VStr body) hdrs (VObj [("network", VStr "main")])
                 "merchant.example" ("sha-256=" +:+ digest)) by received.
  assert (Hn : trustedKeys (self world) !! "toString" = None)
    by (vm_compute; reflexivity).
  assert (Hproto : In "toString" object_prototype)
    by (do 6 right; left; reflexivity).
  split; [exact Hr |]. split; [exact Hn |]. split; [exact Hproto |].
  refine (inherited_identity_throws _ _ _ _ _ _ signature "toString" false world Hr _ _ _ _
            _ Hn Hproto).
  - vm_compute. reflexivity.
  - reflexivity.
  - reflexivity.
  - discriminate.
  - reflexivity.
Defined.

Lemma unknown_signature_type_witness :
  let hdrs := with_header "x-signature-type" (VStr "rsa") in
  Received (VStr url) (VStr body) hdrs (VObj [("network", VStr "main")])
    "merchant.example" ("sha-256=" +:+ digest) /\
  verifyResponse (VStr url) (VStr body) hdrs false false world
  = (Throw (Error "Unknown signature type rsa"), world).
Proof.
  intros hdrs.
  assert (Hr : Received (VStr url) (VStr body) hdrs (VObj [("network", VStr "main")])
                 "merchant.example" ("sha-256=" +:+ digest)) by received.
  split; [exact Hr |].
  refine (unknown_signature_type _ _ _ _ _ _ (VStr signature) (VStr "id1") "rsa" false
            world Hr _ _ _ _ _).
  - reflexivity.
  - reflexivity.
  - reflexivity.
  - discriminate.
  - discriminate.
Defined.

Lemma missing_headers_named_witness :
  url_parse url = Return target /\
  JSON_parse (ToString (VStr body)) = Return (VObj [("network", VStr "main")]) /\
  verifyResponse (VStr url) (VStr body) (headers_without "signature") true false world
  = (Throw (Error "Response missing signature header"), world).
Proof.
  assert (Ht : url_parse url = Return target) by (vm_compute; reflexivity).
  assert (Hj : JSON_parse (ToString (VStr body)) = Return (VObj [("network", VStr "main")]))
    by (vm_compute; reflexivity).
  split; [exact Ht |]. split; [exact Hj |].
  destruct (missing_headers_named (VStr url) url target "merchant.example" (VStr body)
              (headers_without "signature") true world (VObj [("network", VStr "main")])
              ("sha-256=" +:+ digest) eq_refl ltac:(discriminate) Ht eq_refl
              ltac:(discriminate) eq_refl Hj eq_refl) as (_ & Hsignature & _).
  exact (Hsignature eq_refl eq_refl (VStr "id1") eq_refl).
Defined.

Lemma invalid_header_types_witness :
  let hdrs := with_header "x-identity" (VArr [VStr "id1"; VStr "id1"]) in
  Received (VStr url) (VStr body) hdrs (VObj [("network", VStr "main")])
    "merchant.example" ("sha-256=" +:+ digest) /\
  verifyResponse (VStr url) (VStr body) hdrs false false world
  = (Throw (Error "Invalid identity header"), world).
Proof.
  intros hdrs.
  assert (Hr : Received (VStr url) (VStr body) hdrs (VObj [("network", VStr "main")])
                 "merchant.example" ("sha-256=" +:+ digest)) by received.
  split; [exact Hr |].
  destruct (invalid_header_types _ _ _ _ _ _ false world Hr) as (_ & _ & Hidentity).
  refine (Hidentity signature (VArr [VStr "id1"; VStr "id1"]) _ _ _ _ _ _).
  - reflexivity.
  - reflexivity.
  - discriminate.
  - reflexivity.
  - reflexivity.
  - reflexivity.
Defined.

Lemma unreadable_digest_throws_witness :
  let hdrs := with_header "digest" (VArr [VStr "sha-256=00"; VStr "sha-256=11"]) in
  JSON_parse (ToString (VStr body)) = Return (VObj [("network", VStr "main")]) /\
  exists message,
    verifyResponse (VStr url) (VStr body) hdrs false false world
    = (Throw (TypeError message), world).
Proof.
  intros hdrs.
  assert (Hj : JSON_parse (ToString (VStr body)) = Return (VObj [("network", VStr "main")]))
    by (vm_compute; reflexivity).
  split; [exact Hj |].
  exact (unreadable_digest_throws (VStr url) (VStr body) hdrs _
           (VArr [VStr "sha-256=00"; VStr "sha-256=11"]) false world
           eq_refl eq_refl Hj eq_refl eq_refl eq_refl).
Defined.

Lemma invalid_requestUrl_witness :
  url_parse_value (VStr "merchant.example/pay")
  = Return {| protocol := None; hostname := None; port := None;
              path := Some "merchant.example/pay"; query := None |} /\
  verifyResponse (VStr "merchant.example/pay") (VStr body) signed_headers false false
    world
  = (Throw (Error "Invalid requestUrl"), world).
Proof.
  assert (Hu : url_parse_value (VStr "merchant.example/pay")
               = Return {| protocol := None; hostname := None; port := None;
                           path := Some "merchant.example/pay"; query := None |})
    by (vm_compute; reflexivity).
  split; [exact Hu |].
  refine (invalid_requestUrl (VStr "merchant.example/pay") (VStr body) signed_headers
            (VObj [("network", VStr "main")]) ("sha-256=" +:+ digest) false world
            eq_refl eq_refl _ eq_refl _).
  - vm_compute. reflexivity.
  - rewrite Hu. left. reflexivity.
Defined.

Lemma digest_mismatch_rejected_witness :
  Received (VStr url) (VStr other_body) signed_headers (VObj [("network", VStr "maim")])
    "merchant.example" ("sha-256=" +:+ digest) /\
  Some digest <> Some (sha256_hex other_body) /\
  verifyResponse (VStr url) (VStr other_body) signed_headers false false world
  = (Throw (Error ("Response body hash does not match digest header. Actual: " +:+
                   sha256_hex other_body +:+ " Expected: " +:+ digest)), world).
Proof.
  assert (Hr : Received (VStr url) (VStr other_body) signed_headers
                 (VObj [("network", VStr "maim")]) "merchant.example"
                 ("sha-256=" +:+ digest)) by received.
  assert (Hne : Some digest <> Some (sha256_hex other_body))
    by (vm_compute; discriminate).
  split; [exact Hr |]. split; [exact Hne |].
  refine (digest_mismatch_rejected _ _ _ _ _ _ (Some digest) signature "id1" merchant_key
            false world Hr _ Hne _ _ _ _ _ _).
  - vm_compute. reflexivity.
  - reflexivity.
  - reflexivity.
  - discriminate.
  - reflexivity.
  - discriminate.
  - vm_compute. reflexivity.
Defined.

Lemma digest_label_ignored_witness :
  let relabelled := "md5=" +:+ digest +:+ "=ignored" in
  nth_error (split_eq relabelled) 1 = Some digest /\
  verifyResponse (VStr url) (VStr body) (with_header "digest" (VStr relabelled)) true
    false world
  = (Return verified, world).
Proof.
  intros relabelled.
  assert (Hp : Presented world (VStr url) (VStr body) signed_headers body
                 (VObj [("network", VStr "main")]) "merchant.example" digest signature
                 "id1" merchant_key) by presented.
  assert (Hd : nth_error (split_eq relabelled) 1 = Some digest)
    by (vm_compute; reflexivity).
  split; [exact Hd |].
  exact (eq_trans
           (digest_label_ignored world _ _ _ _ _ _ _ _ _ _ true relabelled Hp Hd)
           merchant_response_verifies).
Defined.

Lemma null_body_network_read_throws_witness :
  let hdrs :=
    VObj [("digest", VStr ("sha-256=" +:+ null_digest));
          ("signature", VStr forged_signature);
          ("x-signature-type", VStr "ecc");
          ("x-identity", VStr "id1")] in
  Presented world (VStr url) (VStr null_body) hdrs null_body VNull
    "merchant.example" null_digest forged_signature "id1" merchant_key /\
  null_digest = sha256_hex null_body /\
  verifyResponse (VStr url) (VStr null_body) hdrs true false world
  = (Throw (TypeError "Cannot read property 'network' of null"), world).
Proof.
  intros hdrs.
  assert (Hp : Presented world (VStr url) (VStr null_body) hdrs null_body VNull
                 "merchant.example" null_digest forged_signature "id1" merchant_key)
    by presented.
  assert (Hd : null_digest = sha256_hex null_body) by (vm_compute; reflexivity).
  split; [exact Hp |]. split; [exact Hd |].
  refine (null_body_network_read_throws world _ _ _ _ _ _ _ _ _ Hp Hd _).
  left. reflexivity.
Defined.

(** The exchanges. *)

Lemma operations_fail_fast_witness :
  let sent := wire_options (options_request (VStr url)) (options client) target in
  let posted :=
    wire_options (payment_request (VStr url) (VStr "BTC") (VStr "BTC") transactions)
      (options client) target in
  options (self world) !! "body" = None /\
  fst (invoke (H := node_unreachable) asking world)
  = Throw (NetError "connect ECONNREFUSED") /\
  fst (invoke (H := node_expired) paying world) = Throw (Error "Invoice expired").
Proof.
  intros sent posted.
  assert (Hb : options (self world) !! "body" = None) by (vm_compute; reflexivity).
  split; [exact Hb |]. split.
  - refine (operations_fail_fast (H := node_unreachable) asking world sent None Hb _).
    vm_compute. reflexivity.
  - refine (operations_fail_fast (H := node_expired) paying world posted
              (Some (JSON_stringify payment)) Hb _ _).
    + vm_compute. reflexivity.
    + discriminate.
Defined.

Lemma operations_return_after_200_witness :
  let v := {| requestUrl := VUndefined;
              responseData := VObj [("network", VStr "main")];
              keyData := None |} in
  fst (invoke (H := node_unsigned) checking world) = Return v /\
  ((exists url body hdrs cn bypass, checking = VerifyResponse url body hdrs cn bypass) \/
   (exists sent written responseHeaders chunks,
      wire (snd (invoke (H := node_unsigned) checking world))
      = wire world ++ [{| sent_options := sent; sent_body := written |}] /\
      https_request (Runtime := node_unsigned) sent written
      = Response 200 responseHeaders chunks)).
Proof.
  intros v.
  assert (Hv : fst (invoke (H := node_unsigned) checking world) = Return v)
    by (vm_compute; reflexivity).
  split; [exact Hv |].
  exact (operations_return_after_200 (H := node_unsigned) checking world v Hv).
Defined.

Lemma operations_return_authenticated_witness :
  verified_call selecting /\
  fst (invoke selecting world) = Return verified /\
  exists sent written responseHeaders chunks identity key signature host,
    wire (snd (invoke selecting world))
    = wire world ++ [{| sent_options := sent; sent_body := written |}] /\
    https_request sent written = Response 200 responseHeaders chunks /\
    JSON_parse (String.concat "" chunks) = Return (responseData verified) /\
    get_prop responseHeaders "x-identity" = Return (VStr identity) /\
    trustedKeys (self world) !! identity = Some key /\
    keyData verified = Some key /\
    In host (domains key) /\
    get_prop responseHeaders "signature" = Return (VStr signature) /\
    secp256k1_verify (Buffer_from_hex (sha256_hex (String.concat "" chunks)))
      (Buffer_from_hex signature) (Buffer_from_hex (publicKey key)) = Return true /\
    exists network,
      get_prop (responseData verified) "network" = Return (VStr network) /\
      In network (networks key).
Proof.
  assert (Hv : fst (invoke selecting world) = Return verified)
    by (vm_compute; reflexivity).
  split; [reflexivity |]. split; [exact Hv |].
  exact (operations_return_authenticated selecting world verified eq_refl Hv).
Defined.



Lemma constructor_options_witness :
  let requestOptions : gmap string value := {[ "rejectUnauthorized" := VBool false ]} in
  let w := {| self := new_PaymentProtocol requestOptions store; wire := [] |} in
  let sent := wire_options (options_request (VStr url)) (options client) target in
  wire (snd (invoke asking w)) = [{| sent_options := sent; sent_body := None |}] /\
  sent !! "rejectUnauthorized" = Some (VBool false) /\
  sent !! "agent" = Some (VBool false) /\
  sent !! "timeout" = None.
Proof.
  intros requestOptions w sent.
  assert (Hw : wire (snd (invoke asking w))
               = [{| sent_options := sent; sent_body := None |}])
    by (vm_compute; reflexivity).
  split; [exact Hw |]. split; [| split].
  - exact (constructor_options_on_the_wire requestOptions store asking sent None
             "rejectUnauthorized" Hw ltac:(discriminate) ltac:(discriminate)
             ltac:(discriminate) ltac:(discriminate) ltac:(discriminate)
             ltac:(discriminate) ltac:(discriminate)).
  - vm_compute. reflexivity.
  - vm_compute. reflexivity.
Defined.

End Cases.

Section WalletRuns.
Import Wallet Cases.

Local Existing Instance bitcoind.

Lemma command_resolves_witness :
  let c := Fund (VStr "0200000001") (VNum (Num 1 (-5))) in
  fst (run c process) = Resolved (VStr "0200000001ab") /\
  err (answer_to c process) = None /\
  truthy (rpc_error c process) = false /\
  truthy (rpc_result c process) = true /\
  VStr "0200000001ab" = yield c (rpc_result c process) /\
  snd (run c process) = posting process (post_of c process).
Proof.
  intros c.
  assert (Hv : fst (run c process) = Resolved (VStr "0200000001ab"))
    by (vm_compute; reflexivity).
  split; [exact Hv |].
  exact (command_resolves c process (VStr "0200000001ab") Hv).
Defined.

Lemma command_rejects_witness :
  let c := Broadcast (VStr "0200000001ab") in
  let d := Decode (VStr "0200000001ab") in
  fst (run c process) = Rejected (Value conflict) /\
  snd (run c process)
  = logged (posting process (post_of c process))
      {| text := "Error broadcasting transaction"; shown := None |} /\
  fst (run d process) = Rejected (Exception (Error "Missing decoded tx")) /\
  snd (run d process)
  = logged (posting process (post_of d process))
      {| text := "Bitcoind did not decode the transaction"; shown := None |}.
Proof.
  intros c d.
  assert (Hc : fst (run c process) = Rejected (Value conflict))
    by (vm_compute; reflexivity).
  assert (Hd : fst (run d process) = Rejected (Exception (Error "Missing decoded tx")))
    by (vm_compute; reflexivity).
  split; [exact Hc |]. split.
  - destruct (command_rejects c process _ Hc) as [[_ E] | (_ & _ & E & _)].
    + exact E.
    + discriminate E.
  - split; [exact Hd |].
    destruct (command_rejects d process _ Hd) as [[E _] | (_ & _ & _ & _ & _ & E)].
    + discriminate E.
    + exact E.
Defined.

End WalletRuns.
